(** * rtv/oauth.py: OAuth callback server, authorization helper, rate limiter

    A shallow embedding of [rtv/oauth.py].  The module has three parts:

    - [OAuthHandler]: the HTTP request handler of the local callback server
      ([do_GET], [build_body]) writing the shared [params] dict;
    - [OAuthHelper]: the authorization coordinator ([authorize],
      [clear_oauth_data]);
    - [fix_cache] and [OAuthRateLimiter]: the request shim and the rate
      limiter ([delay], [update], [request]).

    Calls into collaborators that live outside [oauth.py] (the PRAW client,
    the config object, the terminal, the standard library's HTTP server) are
    recorded as events of a trace; what they return is read from a [World]
    record, so every statement below is quantified over all their results. *)

From Stdlib Require Import ZArith String List Bool Lia DecimalString.
From stdpp Require Import base option list gmap strings.

Local Open Scope string_scope.
Local Open Scope Z_scope.

(** ** Python exceptions that occur in the module *)

Inductive exn : Type :=
| HTTPException (status_code : Z)     (* praw.errors.HTTPException; [e._raw.status_code] *)
| OAuthException                      (* praw.errors.OAuthException *)
| InvalidRefreshToken (msg : string)  (* rtv.exceptions.InvalidRefreshToken *)
| KeyError (key : string)
| ValueError (arg : string)
| IndexError
| OverflowError
| OtherException (name : string).     (* anything else, e.g. a transport error *)

(** ** The shared callback parameters

    [OAuthHandler.params] is a class-level dict with the three keys
    ['state'], ['code'] and ['error']; [OAuthHelper.params] is the same
    object.  A Python value [None] is [None], a string [s] is [Some s]. *)

Record Params : Type := mkParams {
  p_state : option string;
  p_code  : option string;
  p_error : option string }.

Definition set_p_state (v : option string) (p : Params) : Params :=
  mkParams v (p_code p) (p_error p).
Definition set_p_code (v : option string) (p : Params) : Params :=
  mkParams (p_state p) v (p_error p).
Definition set_p_error (v : option string) (p : Params) : Params :=
  mkParams (p_state p) (p_code p) v.

(** [params.update(state=None, code=None, error=None)] *)
Definition params_reset (p : Params) : Params :=
  set_p_error None (set_p_code None (set_p_state None p)).

(** ** Requests and events *)

(** What [urlparse(self.path)] yields for a request: the path component and
    the query component, the latter as the sequence of the decoded
    [name=value] fields of the query string, in the order they occur, a
    field with a blank value ([name=]) included. *)
Record Request : Type := mkRequest {
  path  : string;
  query : list (string * string) }.

Inductive header_value : Type :=
| HStr (s : string)
| HInt (n : nat).

Inductive event : Type :=
(* BaseHTTPRequestHandler *)
| EvSendError (status : Z)
| EvSendResponse (status : Z)
| EvSendHeader (name : string) (value : header_value)
| EvEndHeaders
| EvWrite (body : string)
| EvShutdownThread
(* terminal *)
| EvLoader (msg : string)
| EvOpenBrowser (url : string)
| EvShowNotification (msg : string) (style : option string)
(* reddit client *)
| EvRefreshAccessInformation (token : string)
| EvClearAuthentication
| EvGetAuthorizeUrl (state scope : string) (refreshable : bool)
| EvGetAccessInformation (code : option string)
(* config *)
| EvDeleteRefreshToken
| EvSaveRefreshToken
(* server, threads, time, logging *)
| EvHTTPServer (port : Z)
| EvServeForever
| EvServerShutdown
| EvThreadStart
| EvThreadJoin
| EvSleep (seconds : Z)
| EvLogException (e : exn).

(** ** The store: every object [oauth.py] assigns to *)

Record Store : Type := mkStore {
  params : Params;                (* the one dict behind OAuthHandler.params *)
  shutdown_on_request : bool;     (* OAuthHandler.shutdown_on_request *)
  server : option Z;              (* self.server: None, or a server bound to a port *)
  refresh_token : option string;  (* config.refresh_token *)
  loader_exception : option exn;  (* term.loader.exception *)
  trace : list event }.           (* calls made so far, oldest first *)

Definition set_params (f : Params → Params) (s : Store) : Store :=
  mkStore (f (params s)) (shutdown_on_request s) (server s)
          (refresh_token s) (loader_exception s) (trace s).
Definition set_shutdown_on_request (b : bool) (s : Store) : Store :=
  mkStore (params s) b (server s) (refresh_token s) (loader_exception s) (trace s).
Definition set_server (v : option Z) (s : Store) : Store :=
  mkStore (params s) (shutdown_on_request s) v
          (refresh_token s) (loader_exception s) (trace s).
Definition set_refresh_token (v : option string) (s : Store) : Store :=
  mkStore (params s) (shutdown_on_request s) (server s)
          v (loader_exception s) (trace s).
Definition set_loader_exception (v : option exn) (s : Store) : Store :=
  mkStore (params s) (shutdown_on_request s) (server s)
          (refresh_token s) v (trace s).
Definition log (e : event) (s : Store) : Store :=
  mkStore (params s) (shutdown_on_request s) (server s)
          (refresh_token s) (loader_exception s) (trace s ++ [e])%list.

(** ** A monad for statements: state, exceptions and [return] *)

Inductive completion (A : Type) : Type :=
| Val (a : A)        (* the statement fell through with a value *)
| Ret                (* a [return] statement was executed *)
| Exc (e : exn)      (* an exception is propagating *)
| Hang.              (* a call blocks forever: nothing after it runs *)
Arguments Val {A} a.
Arguments Ret {A}.
Arguments Exc {A} e.
Arguments Hang {A}.

Definition Act (A : Type) : Type := Store → completion A * Store.

#[global] Instance Act_ret : MRet Act := λ A a s, (Val a, s).
#[global] Instance Act_bind : MBind Act := λ A B f m s,
  match m s with
  | (Val a, s') => f a s'
  | (Ret, s') => (Ret, s')
  | (Exc e, s') => (Exc e, s')
  | (Hang, s') => (Hang, s')
  end.

Definition get : Act Store := λ s, (Val s, s).
Definition modify (f : Store → Store) : Act unit := λ s, (Val tt, f s).
Definition emit (e : event) : Act unit := modify (log e).
Definition return_ {A} : Act A := λ s, (Ret, s).
Definition raise {A} (e : exn) : Act A := λ s, (Exc e, s).
Definition hang {A} : Act A := λ s, (Hang, s).
Definition skip : Act unit := mret tt.

(** A function call: a [return] inside the body ends the call, not the caller. *)
Definition call (body : Act unit) : Act unit := λ s,
  match body s with
  | (Ret, s') => (Val tt, s')
  | r => r
  end.

(** The result of an external call that either returns or raises. *)
Definition lift_result {A} (r : exn + A) : Act A :=
  match r with
  | inl e => raise e
  | inr a => mret a
  end.
Definition lift_failure (r : option exn) : Act unit :=
  match r with
  | Some e => raise e
  | None => skip
  end.

(** ** The world: what the collaborators answer *)

Record World : Type := mkWorld {
  (* docs.OAUTH_* and the index.html template *)
  OAUTH_ACCESS_DENIED : string;
  OAUTH_ERROR : string → string;      (* docs.OAUTH_ERROR.format(error=...) *)
  OAUTH_INVALID : string;
  OAUTH_SUCCESS : string;
  render : string → string;           (* Template(index_text).substitute(message=...), utf-8 *)
  (* config and terminal *)
  display : bool;                     (* term.display *)
  persistent : bool;                  (* config['persistent'] *)
  oauth_scope : string;               (* config['oauth_scope'] *)
  oauth_redirect_port : Z;            (* config['oauth_redirect_port'] *)
  loader_suppresses : exn → bool;     (* does the loader's __exit__ swallow it *)
  open_browser : string → option exn; (* Some e: the call raises e *)
  (* reddit client *)
  refresh_access_information : string → option exn;
  get_authorize_url : string → string → bool → string;
  get_access_information : option string → exn + (string * string);
                                      (* info['refresh_token'], reddit.user.name *)
  (* the rest *)
  uuid4_hex : string;                 (* uuid.uuid4().hex *)
  served : list Request }.            (* requests the server handles while it runs *)

(** ** OAuthHandler *)

Module OAuthHandler.

(** [urllib.parse.parse_qs] with its default [keep_blank_values=False]: a
    field with a blank value is skipped; the result is a dict from each
    remaining name to the list of its values, in order of occurrence. *)
Definition parse_qs (fields : list (string * string)) : gmap string (list string) :=
  foldl (λ (d : gmap string (list string)) '(name, value),
           if String.eqb value "" then d
           else match d !! name with
                | Some vs => <[name := (vs ++ [value])%list]> d
                | None => <[name := [value]]> d
                end) ∅ fields.

(** [qs[k][0] if k in qs else None] *)
Definition first_or_none (qs : gmap string (list string)) (k : string)
  : Act (option string) :=
  match qs !! k with
  | Some (v :: _) => mret (Some v)
  | Some [] => raise IndexError
  | None => mret None
  end.

(** The message chosen in [build_body], lines 89-96. *)
Definition build_body_message (w : World) (p : Params) : string :=
  if bool_decide (p_error p = Some "access_denied") then OAUTH_ACCESS_DENIED w
  else match p_error p with
       | Some e => OAUTH_ERROR w e
       | None =>
           match p_state p, p_code p with
           | Some _, Some _ => OAUTH_SUCCESS w
           | _, _ => OAUTH_INVALID w
           end
       end.

Definition build_body (w : World) : Act string :=
  s ← get;
  mret (render w (build_body_message w (params s))).

Definition do_GET (w : World) (req : Request) : Act unit :=
  call (
    (if bool_decide (path req ≠ "/") then emit (EvSendError 404) else skip);;
    let qs := parse_qs (query req) in
    v ← first_or_none qs "state"; modify (set_params (set_p_state v));;
    v ← first_or_none qs "code";  modify (set_params (set_p_code v));;
    v ← first_or_none qs "error"; modify (set_params (set_p_error v));;
    body ← build_body w;
    emit (EvSendResponse 200);;
    emit (EvSendHeader "Content-Type" (HStr "text/html; charset=UTF-8"));;
    emit (EvSendHeader "Content-Length" (HInt (String.length body)));;
    emit EvEndHeaders;;
    emit (EvWrite body);;
    s ← get;
    if shutdown_on_request s then emit EvShutdownThread else skip).

End OAuthHandler.

(** ** Control structures used by [authorize] *)

(** [try: body / except <classes> as e: handler e]; [handler e = None] when
    the except clause does not match [e]. *)
Definition try_except {A} (body : Act A) (handler : exn → option (Act A)) : Act A := λ s,
  match body s with
  | (Exc e, s') =>
      match handler e with
      | Some h => h s'
      | None => (Exc e, s')
      end
  | r => r
  end.

(** Modelled from the spec: [term.loader], the terminal's scoped loader
    (rtv/terminal.py is not part of oauth.py).  It "displays a transient
    status for the duration of an enclosed blocking operation and records any
    exception raised inside it for later inspection by the caller".  Entering
    the scope clears the recorded exception; leaving it with an exception [e]
    records [e], and the scope either swallows [e] (the statements after the
    [with] run, and any name bound inside stays unbound) or lets it
    propagate, as [loader_suppresses] says. *)
Definition loader {A} (w : World) (msg : string) (body : Act A) : Act (option A) := λ s,
  match body (log (EvLoader msg) (set_loader_exception None s)) with
  | (Val a, s') => (Val (Some a), s')
  | (Ret, s') => (Ret, s')
  | (Exc e, s') =>
      let s'' := set_loader_exception (Some e) s' in
      if loader_suppresses w e then (Val None, s'') else (Exc e, s'')
  | (Hang, s') => (Hang, s')
  end.

(** Truth value of a Python [str]-or-[None]. *)
Definition truthy (v : option string) : bool :=
  match v with
  | Some s => negb (String.eqb s "")
  | None => false
  end.

(** The server's accept loop: each request is handled by [do_GET]; an
    exception escaping a handler is reported by the server, not raised. *)
Fixpoint handle_requests (w : World) (reqs : list Request) : Act unit :=
  match reqs with
  | [] => skip
  | r :: rs =>
      try_except (OAuthHandler.do_GET w r) (λ _, Some skip);;
      handle_requests w rs
  end.

(** ** OAuthHelper *)

Module OAuthHelper.

Definition is_HTTPException (e : exn) : bool :=
  match e with HTTPException _ => true | _ => false end.
Definition is_OAuthException (e : exn) : bool :=
  match e with OAuthException => true | _ => false end.

Definition newline : string := String (Ascii.ascii_of_nat 10) EmptyString.

Definition invalid_credentials_message : string :=
  "       Invalid user credentials!" ++ newline ++
  "The cached refresh token has been removed".

(** Modelled from the spec: [config.delete_refresh_token()] (rtv/config.py
    is not part of oauth.py) "deletes the persisted refresh token": the
    token is gone from the config, [config.refresh_token] is [None]
    afterwards. *)
Definition delete_refresh_token : Act unit :=
  emit EvDeleteRefreshToken;;
  modify (set_refresh_token None).

Definition clear_oauth_data : Act unit :=
  emit EvClearAuthentication;;
  delete_refresh_token.

(** The [except (HTTPException, OAuthException) as e] clause, lines 140-155. *)
Definition refresh_rejected (e : exn) : option (Act unit) :=
  if is_HTTPException e || is_OAuthException e then
    Some (
      match e with
      | HTTPException status_code =>
          if bool_decide (status_code ≠ 400) then raise e else skip
      | _ => skip
      end;;
      emit (EvLogException e);;
      clear_oauth_data;;
      raise (InvalidRefreshToken invalid_credentials_message))
  else None.

Definition show_notification (msg : string) (style : option string) : Act unit :=
  emit (EvShowNotification msg style).

(** [self.server.serve_forever()] on the calling thread, line 173, where
    [shutdown_on_request] is set: the loop ends once a handler has started
    the shutdown, which every handled request does; if no request comes it
    never returns. *)
Definition serve_forever (w : World) : Act unit :=
  emit EvServeForever;;
  handle_requests w (served w);;
  match served w with
  | [] => hang
  | _ :: _ => skip
  end.

(** Lines 166-201: wait for the callback, with or without a display. *)
Definition wait_for_callback (w : World) (authorize_url : string) : Act unit :=
  if display w then
    modify (set_shutdown_on_request true);;
    loader w "Opening browser for authorization" (
      emit (EvOpenBrowser authorize_url);;
      lift_failure (open_browser w authorize_url);;
      serve_forever w);;
    s ← get;
    match loader_exception s with
    | Some _ => return_
    | None => skip
    end
  else
    modify (set_shutdown_on_request false);;
    loader w "Redirecting to reddit" (emit (EvSleep 1));;
    (* the background thread serves requests from start() to join() *)
    emit EvThreadStart;;
    emit (EvOpenBrowser authorize_url);;
    handle_requests w (served w);;
    match open_browser w authorize_url with
    | Some e =>
        emit (EvLogException e);;
        show_notification "Browser Error" (Some "error");;
        (* finally: thread.join() without a shutdown() before it; with
           shutdown_on_request unset nothing ends the accept loop, so the
           join never returns *)
        emit EvThreadJoin;;
        hang
    | None =>
        emit EvServerShutdown;;
        emit EvThreadJoin
    end.

(** Lines 203-226: check the callback parameters, then exchange the code. *)
Definition check_and_exchange (w : World) (state : string) : Act unit :=
  s ← get;
  (if bool_decide (p_error (params s) = Some "access_denied") then
     show_notification "Denied access" (Some "error");; return_
   else if truthy (p_error (params s)) then
     show_notification "Authentication error" (Some "error");; return_
   else match p_state (params s) with
        | None => return_
        | Some returned =>
            if bool_decide (returned ≠ state) then
              show_notification "UUID mismatch" (Some "error");; return_
            else skip
        end);;
  info ← loader w "Logging in" (
    s ← get;
    emit (EvGetAccessInformation (p_code (params s)));;
    lift_result (get_access_information w (p_code (params s))));
  s ← get;
  match loader_exception s with
  | Some _ => return_
  | None => skip
  end;;
  match info with
  | None => raise (OtherException "UnboundLocalError")
  | Some (token, user_name) =>
      show_notification ("Welcome " ++ user_name ++ "!") None;;
      modify (set_refresh_token (Some token));;
      if persistent w then emit EvSaveRefreshToken else skip
  end.

Definition authorize (w : World) : Act unit :=
  call (
    modify (set_params params_reset);;
    s ← get;
    (if truthy (refresh_token s) then
       loader w "Logging in" (
         try_except
           (match refresh_token s with
            | Some token =>
                emit (EvRefreshAccessInformation token);;
                lift_failure (refresh_access_information w token)
            | None => skip
            end)
           refresh_rejected);;
       return_
     else skip);;
    let state := uuid4_hex w in
    emit (EvGetAuthorizeUrl state (oauth_scope w) true);;
    let authorize_url := get_authorize_url w state (oauth_scope w) true in
    s ← get;
    match server s with
    | None =>
        emit (EvHTTPServer (oauth_redirect_port w));;
        modify (set_server (Some (oauth_redirect_port w)))
    | Some _ => skip
    end;;
    wait_for_callback w authorize_url;;
    check_and_exchange w state).

End OAuthHelper.

(** [sub in s] on Python strings: [sub] starts at some offset of [s]. *)
Fixpoint contains (sub s : string) : bool :=
  String.prefix sub s ||
  match s with
  | EmptyString => false
  | String _ rest => contains sub rest
  end.

(** ** OAuthHelper.__init__ *)

Module OAuthHelperInit.

(** What the constructor reads from [config] and changes on [reddit]. *)
Record Config : Type := mkConfig {
  oauth_client_id : string;
  oauth_client_secret : string;
  oauth_redirect_uri : string }.

Record Reddit : Type := mkReddit {
  oauth_app_info : option (string * string * string);
                                  (* arguments of the last set_oauth_app_info call *)
  authorize_path : string }.      (* reddit.config.API_PATHS['authorize'] *)

(** [__init__], lines 110-128: the new helper's [self.server], and [reddit]
    afterwards. *)
Definition init (display : bool) (config : Config) (reddit : Reddit)
  : option Z * Reddit :=
  let reddit1 :=
    mkReddit (Some (oauth_client_id config, oauth_client_secret config,
                    oauth_redirect_uri config))
             (authorize_path reddit) in
  (None,
   if negb display then
     if negb (contains ".compact" (authorize_path reddit1)) then
       mkReddit (oauth_app_info reddit1) (authorize_path reddit1 ++ ".compact")
     else reddit1
   else reddit1).

End OAuthHelperInit.

(** ** Results of pure code that may raise *)

#[global] Instance result_ret : MRet (sum exn) := λ A a, inr a.
#[global] Instance result_bind : MBind (sum exn) := λ A B f r,
  match r with
  | inl e => inl e
  | inr a => f a
  end.

(** ** fix_cache *)

Module FixCache.
Section Wraps.
(** [K]: the components of a PRAW cache key (params, data, cookies, auth,
    oauth); [R]: what the wrapped handler returns. *)
Context {K R : Type}.

(** [items[i]] on a tuple, for an index [i >= 0]. *)
Definition getitem (items : list K) (i : nat) : exn + K :=
  match items !! i with
  | Some x => inr x
  | None => inl IndexError
  end.

(** Lines 241-248; a cache key is [None] or a pair [(url, items)]. *)
Definition strip_cookies (_cache_key : option (string * list K))
  : exn + option (string * list K) :=
  match _cache_key with
  | Some (url, items) =>
      i0 ← getitem items 0;
      i1 ← getitem items 1;
      i3 ← getitem items 3;
      i4 ← getitem items 4;
      mret (Some (url, [i0; i1; i3; i4]))
  | None => mret None
  end.

(** Lines 250-252. *)
Definition force_ignore (method : string) (_cache_ignore : bool) : bool :=
  if bool_decide (method ≠ "GET") then true else _cache_ignore.

(** [wraps]: the arguments [func] is called with, and the call. *)
Definition wraps_args (_cache_key : option (string * list K))
    (_cache_ignore : bool) (method : string)
  : exn + (option (string * list K) * bool) :=
  key ← strip_cookies _cache_key;
  mret (key, force_ignore method _cache_ignore).

Definition fix_cache (func : option (string * list K) → bool → exn + R)
    (_cache_key : option (string * list K)) (_cache_ignore : bool)
    (method : string) : exn + R :=
  '(key, ignore) ← wraps_args _cache_key _cache_ignore method;
  func key ignore.
End Wraps.
End FixCache.

(** ** OAuthRateLimiter *)

(** Python floats, as far as the rate limiter uses them.  [float_of_string]
    and [int_of_string] are the built-ins [float] and [int] on a string
    ([None]: they raise [ValueError]).  Adding an [int] to a float converts
    it to a float first, which raises [OverflowError] when it is too large. *)
Class PyFloat : Type := {
  float : Type;
  float_of_string : string → option float;
  int_of_string : string → option Z;
  float_le0 : float → bool;            (* x <= 0 *)
  float_gt0 : float → bool;            (* x > 0 *)
  int_overflows_float : Z → bool;      (* n is too large for a float *)
  float_add_int : float → Z → float;   (* x + n, for an n that fits *)
  float_sub : float → float → float;   (* x - y *)
  float_gt0_not_le0 : ∀ x, float_gt0 x = true → float_le0 x = false }.

Module OAuthRateLimiter.
Section WithFloats.
Context {F : PyFloat}.

Record RateLimiter : Type := mkRateLimiter {
  next_request_timestamp : option float }.

Record Response : Type := mkResponse {
  status_code : Z;
  headers : gmap string string }.

(** [delay]: the [time.sleep] calls it makes and the limiter afterwards;
    [now] is what [time.time()] returns. *)
Definition delay (now : float) (self : RateLimiter) : list float * RateLimiter :=
  match next_request_timestamp self with
  | None => ([], self)
  | Some next =>
      let sleep_seconds := float_sub next now in
      if float_le0 sleep_seconds then ([], self)
      else ([sleep_seconds], self)
  end.

(** [float(response_headers[key])] and [int(response_headers[key])]. *)
Definition header_float (response_headers : gmap string string) (key : string)
  : exn + float :=
  match response_headers !! key with
  | None => inl (KeyError key)
  | Some v =>
      match float_of_string v with
      | Some x => inr x
      | None => inl (ValueError v)
      end
  end.
Definition header_int (response_headers : gmap string string) (key : string)
  : exn + Z :=
  match response_headers !! key with
  | None => inl (KeyError key)
  | Some v =>
      match int_of_string v with
      | Some n => inr n
      | None => inl (ValueError v)
      end
  end.

Definition update (now : float) (response_headers : gmap string string)
    (self : RateLimiter) : exn + RateLimiter :=
  match response_headers !! "x-ratelimit-remaining" with
  | None => mret self
  | Some _ =>
      used ← header_float response_headers "x-ratelimit-used";
      remaining ← header_float response_headers "x-ratelimit-remaining";
      seconds_to_reset ← header_int response_headers "x-ratelimit-reset";
      if float_le0 remaining
      then
        if int_overflows_float seconds_to_reset then inl OverflowError
        else mret (mkRateLimiter (Some (float_add_int now seconds_to_reset)))
      else mret (mkRateLimiter None)
  end.

(** [request], lines 327-331: [send] is the outcome of [self.http.send],
    [t1] and [t2] the clock readings in [delay] and [update].  The result
    is the sleeps made, what the call returns or raises, and the limiter
    afterwards. *)
Definition request (t1 t2 : float) (send : exn + Response) (self : RateLimiter)
  : list float * (exn + Response) * RateLimiter :=
  let '(sleeps, self1) := delay t1 self in
  match send with
  | inl e => (sleeps, inl e, self1)
  | inr response =>
      match update t2 (headers response) self1 with
      | inl e => (sleeps, inl e, self1)
      | inr self2 => (sleeps, inr response, self2)
      end
  end.
End WithFloats.
End OAuthRateLimiter.

(** ** Reference notions used in the statements *)

(** The value of the first field named [k] in a query, if there is one. *)
Fixpoint first_occurrence (k : string) (fields : list (string * string))
  : option string :=
  match fields with
  | [] => None
  | (name, value) :: rest =>
      if bool_decide (name = k) then Some value else first_occurrence k rest
  end.

(** One step of [parse_qs]: the dict after one more field. *)
Definition parse_qs_step (d : gmap string (list string)) (f : string * string)
  : gmap string (list string) :=
  let '(name, value) := f in
  if String.eqb value "" then d
  else match d !! name with
       | Some vs => <[name := (vs ++ [value])%list]> d
       | None => <[name := [value]]> d
       end.

(** The value of the first field named [k] whose value is not blank. *)
Fixpoint first_nonblank (k : string) (fields : list (string * string))
  : option string :=
  match fields with
  | [] => None
  | (name, value) :: rest =>
      if bool_decide (name = k ∧ value ≠ "") then Some value
      else first_nonblank k rest
  end.

(** All non-blank values of the fields named [k], in order. *)
Definition values_of (k : string) (fields : list (string * string)) : list string :=
  (filter (λ f : string * string, f.1 = k ∧ f.2 ≠ "") fields).*2.

(** The callback page's message as the spec words it: four rules tried in
    order, each either applying (and giving its message) or not. *)
Definition message_rules (w : World) (p : Params) : list (option string) :=
  [ (* error == "access_denied": the denied message *)
    if bool_decide (p_error p = Some "access_denied")
    then Some (OAUTH_ACCESS_DENIED w) else None;
    (* error present: the provider-error message for that error *)
    OAUTH_ERROR w <$> p_error p;
    (* state or code absent: the invalid message *)
    if bool_decide (p_state p = None ∨ p_code p = None)
    then Some (OAUTH_INVALID w) else None;
    (* otherwise: the success message *)
    Some (OAUTH_SUCCESS w) ].

(** First match wins. *)
Fixpoint first_some (rules : list (option string)) : option string :=
  match rules with
  | [] => None
  | Some m :: _ => Some m
  | None :: rest => first_some rest
  end.

(** What a handled request leaves behind: the three parameters, each taken
    from the first field of its name that has a value, and the response
    written. *)
Definition callback_params (req : Request) : Params :=
  mkParams (first_nonblank "state" (query req))
           (first_nonblank "code" (query req))
           (first_nonblank "error" (query req)).

Definition response_events (w : World) (p : Params) (shutdown : bool) : list event :=
  let body := render w (OAuthHandler.build_body_message w p) in
  [ EvSendResponse 200;
    EvSendHeader "Content-Type" (HStr "text/html; charset=UTF-8");
    EvSendHeader "Content-Length" (HInt (String.length body));
    EvEndHeaders;
    EvWrite body ] ++ (if shutdown then [EvShutdownThread] else []).

(** Events of the code exchange and of persisting its result. *)
Definition is_exchange_or_save (e : event) : bool :=
  match e with
  | EvGetAccessInformation _ | EvSaveRefreshToken => true
  | _ => false
  end.

(** The failures of a silent refresh that mean "authorization rejected":
    an HTTP error with status 400, or an OAuth-level error. *)
Definition authorization_rejected (e : exn) : bool :=
  match e with
  | HTTPException status_code => bool_decide (status_code = 400)
  | OAuthException => true
  | _ => false
  end.

(** What a failed silent refresh raises inside the loader: the dedicated
    failure after a rejection, the client's own exception otherwise. *)
Definition refresh_raises (e : exn) : exn :=
  if authorization_rejected e
  then InvalidRefreshToken OAuthHelper.invalid_credentials_message
  else e.

(** [s'] extends [s] by events that are neither the code exchange nor the
    saving of a token, and holds the same refresh token. *)
Definition quiet (s s' : Store) : Prop :=
  refresh_token s' = refresh_token s ∧
  ∃ evs, trace s' = (trace s ++ evs)%list ∧
         Forall (λ e, is_exchange_or_save e = false) evs.

(** [p] holds no value from before the attempt: it is all-absent, or it is
    what one of the requests [reqs] served during the attempt wrote. *)
Definition fresh_params (reqs : list Request) (p : Params) : Prop :=
  p = mkParams None None None ∨ ∃ req, req ∈ reqs ∧ p = callback_params req.

(** The store in which the wait for the callback starts. *)
Definition prepared (w : World) (s : Store) : Store :=
  let s1 := log (EvGetAuthorizeUrl (uuid4_hex w) (oauth_scope w) true)
                (set_params params_reset s) in
  match server s with
  | None => set_server (Some (oauth_redirect_port w))
                       (log (EvHTTPServer (oauth_redirect_port w)) s1)
  | Some _ => s1
  end.

(** The events of one handled request, for a given [shutdown_on_request]. *)
Definition request_events (w : World) (shutdown : bool) (req : Request) : list event :=
  (if bool_decide (path req ≠ "/") then [EvSendError 404] else [])
  ++ response_events w (callback_params req) shutdown.

(** The parameters after the requests [reqs] were handled in order, starting
    from [p]: those of the last request. *)
Definition served_params (reqs : list Request) (p : Params) : Params :=
  from_option callback_params p (last reqs).

(** The URL the browser is sent to. *)
Definition authorize_url (w : World) : string :=
  get_authorize_url w (uuid4_hex w) (oauth_scope w) true.

(** The calls made before the wait: the authorize URL is built and, only
    when no server is bound yet, one is. *)
Definition prepare_events (w : World) (s : Store) : list event :=
  EvGetAuthorizeUrl (uuid4_hex w) (oauth_scope w) true
  :: match server s with
     | None => [EvHTTPServer (oauth_redirect_port w)]
     | Some _ => []
     end.

(** The events of the wait for the callback, when it is not cut short by a
    browser that fails to launch on a display. *)
Definition wait_events (w : World) (url : string) : list event :=
  if display w then
    [EvLoader "Opening browser for authorization"; EvOpenBrowser url; EvServeForever]
    ++ concat (map (request_events w true) (served w))
  else
    [EvLoader "Redirecting to reddit"; EvSleep 1; EvThreadStart; EvOpenBrowser url]
    ++ concat (map (request_events w false) (served w))
    ++ match open_browser w url with
       | Some e => [EvLogException e; EvShowNotification "Browser Error" (Some "error")]
       | None => [EvServerShutdown]
       end
    ++ [EvThreadJoin].

(** The store the checks of the callback parameters start from. *)
Definition callback_store (w : World) (s : Store) : Store :=
  mkStore (served_params (served w) (mkParams None None None)) (display w)
    (server (prepared w s)) (refresh_token s) None
    (trace (prepared w s) ++ wait_events w (authorize_url w)).

(** The wait never ends: without a display, when the browser launch raises
    (the server is never shut down, so the join blocks); on a display, when
    the browser was launched and no request comes. *)
Definition wait_blocks (w : World) : Prop :=
  if display w
  then open_browser w (authorize_url w) = None ∧ served w = []
  else is_Some (open_browser w (authorize_url w)).

(** The outcome of a call whose body ended with [c]. *)
Definition call_outcome (c : completion unit) : completion unit :=
  match c with
  | Ret => Val tt
  | r => r
  end.

(** Classes of events. *)
Definition is_bind (e : event) : bool :=
  match e with EvHTTPServer _ => true | _ => false end.

Definition is_error_notification (e : event) : bool :=
  match e with
  | EvShowNotification _ (Some "error") => true
  | _ => false
  end.

Definition is_notification (e : event) : bool :=
  match e with EvShowNotification _ _ => true | _ => false end.

Definition is_check_event (e : event) : bool :=
  match e with
  | EvShowNotification _ _ | EvLoader _
  | EvGetAccessInformation _ | EvSaveRefreshToken => true
  | _ => false
  end.

Definition is_shutdown_thread (e : event) : bool :=
  match e with EvShutdownThread => true | _ => false end.

Definition is_server_shutdown_call (e : event) : bool :=
  match e with EvServerShutdown => true | _ => false end.

(** ** Concrete inputs *)

Definition example_world : World := {|
  OAUTH_ACCESS_DENIED := "denied";
  OAUTH_ERROR := λ e, "error: " ++ e;
  OAUTH_INVALID := "invalid";
  OAUTH_SUCCESS := "success";
  render := λ m, "<p>" ++ m ++ "</p>";
  display := true;
  persistent := true;
  oauth_scope := "read";
  oauth_redirect_port := 65000;
  loader_suppresses := λ _, false;
  open_browser := λ _, None;
  refresh_access_information := λ _, Some (HTTPException 400);
  get_authorize_url := λ state _ _, "https://www.reddit.com/authorize?state=" ++ state;
  get_access_information := λ _, inr ("token", "user");
  uuid4_hex := "0123456789abcdef0123456789abcdef";
  served := [mkRequest "/" [("state", "stale"); ("code", "xyz")]] |}.

Definition example_store : Store :=
  mkStore (mkParams None None None) true None None None [].

(** Clock readings in whole seconds, and only integer literals parse: a
    deliberately small instance of [PyFloat] to run the limiter on. *)
Definition Z_of_string (s : string) : option Z :=
  Z.of_int <$> NilZero.int_of_string s.

(** The integers whose conversion to a float overflows: rounding to the
    nearest double reaches [2^1024] from [2^1024 - 2^970] on, in absolute
    value. *)
Definition too_large_for_float (n : Z) : bool :=
  bool_decide (2 ^ 1024 - 2 ^ 970 ≤ Z.abs n).

Program Definition whole_seconds : PyFloat := {|
  float := Z;
  float_of_string := Z_of_string;
  int_of_string := Z_of_string;
  float_le0 x := bool_decide (x ≤ 0);
  float_gt0 x := bool_decide (0 < x);
  int_overflows_float := too_large_for_float;
  float_add_int := Z.add;
  float_sub := Z.sub |}.
Next Obligation.
  intros x Hx. apply bool_decide_eq_true_1 in Hx.
  apply bool_decide_eq_false_2. lia.
Qed.

Definition headers_without_used : gmap string string :=
  {[ "x-ratelimit-remaining" := "0"; "x-ratelimit-reset" := "30" ]}.
Definition headers_exhausted : gmap string string :=
  <[ "x-ratelimit-used" := "600" ]> headers_without_used.
Definition headers_remaining_only : gmap string string :=
  {[ "x-ratelimit-remaining" := "5" ]}.

(** A reset header of 401 digits: [int] parses it, no float holds it. *)
Fixpoint repeat_string (n : nat) (s : string) : string :=
  match n with
  | O => ""
  | S n' => s ++ repeat_string n' s
  end.
Definition huge_reset : string := "1" ++ repeat_string 400 "0".
Definition headers_huge_reset : gmap string string :=
  <[ "x-ratelimit-reset" := huge_reset ]> headers_exhausted.

Definition cache_key_items : list string :=
  ["params"; "data"; "cookies"; "auth"; "oauth"].

(** Variations of [example_world]. *)
Definition with_served (v : list Request) (w : World) : World :=
  mkWorld (OAUTH_ACCESS_DENIED w) (OAUTH_ERROR w) (OAUTH_INVALID w) (OAUTH_SUCCESS w) (render w) (display w) (persistent w) (oauth_scope w) (oauth_redirect_port w) (loader_suppresses w) (open_browser w) (refresh_access_information w) (get_authorize_url w) (get_access_information w) (uuid4_hex w) v.
Definition with_display (v : bool) (w : World) : World :=
  mkWorld (OAUTH_ACCESS_DENIED w) (OAUTH_ERROR w) (OAUTH_INVALID w) (OAUTH_SUCCESS w) (render w) v (persistent w) (oauth_scope w) (oauth_redirect_port w) (loader_suppresses w) (open_browser w) (refresh_access_information w) (get_authorize_url w) (get_access_information w) (uuid4_hex w) (served w).
Definition with_open_browser (v : string → option exn) (w : World) : World :=
  mkWorld (OAUTH_ACCESS_DENIED w) (OAUTH_ERROR w) (OAUTH_INVALID w) (OAUTH_SUCCESS w) (render w) (display w) (persistent w) (oauth_scope w) (oauth_redirect_port w) (loader_suppresses w) v (refresh_access_information w) (get_authorize_url w) (get_access_information w) (uuid4_hex w) (served w).
Definition with_get_access_information (v : option string → exn + (string * string)) (w : World) : World :=
  mkWorld (OAUTH_ACCESS_DENIED w) (OAUTH_ERROR w) (OAUTH_INVALID w) (OAUTH_SUCCESS w) (render w) (display w) (persistent w) (oauth_scope w) (oauth_redirect_port w) (loader_suppresses w) (open_browser w) (refresh_access_information w) (get_authorize_url w) v (uuid4_hex w) (served w).
Definition with_refresh_access_information (v : string → option exn) (w : World) : World :=
  mkWorld (OAUTH_ACCESS_DENIED w) (OAUTH_ERROR w) (OAUTH_INVALID w) (OAUTH_SUCCESS w) (render w) (display w) (persistent w) (oauth_scope w) (oauth_redirect_port w) (loader_suppresses w) (open_browser w) v (get_authorize_url w) (get_access_information w) (uuid4_hex w) (served w).

Definition matching_request : Request :=
  mkRequest "/" [("state", "0123456789abcdef0123456789abcdef"); ("code", "xyz")].

Definition world_matching : World := with_served [matching_request] example_world.
Definition world_exchange_fails : World :=
  with_get_access_information (λ _, inl OAuthException) world_matching.
Definition world_denied : World :=
  with_served [mkRequest "/" [("error", "access_denied")]] example_world.
Definition world_refresh_ok : World :=
  with_refresh_access_information (λ _, None) example_world.
Definition world_no_browser : World :=
  with_open_browser (λ _, Some (OtherException "BrowserError")) world_matching.
Definition world_headless_no_browser : World := with_display false world_no_browser.
Definition with_loader_suppresses (v : exn → bool) (w : World) : World :=
  mkWorld (OAUTH_ACCESS_DENIED w) (OAUTH_ERROR w) (OAUTH_INVALID w) (OAUTH_SUCCESS w) (render w) (display w) (persistent w) (oauth_scope w) (oauth_redirect_port w) v (open_browser w) (refresh_access_information w) (get_authorize_url w) (get_access_information w) (uuid4_hex w) (served w).

(** A terminal without a display whose browser cannot be launched, while a
    callback with a stale state is delivered. *)
Definition world_headless_stale : World :=
  with_display false
    (with_open_browser (λ _, Some (OtherException "BrowserError")) example_world).
(** A terminal without a display whose browser runs and is closed. *)
Definition world_headless : World := with_display false world_matching.
(** The callback, then the browser's request for the page icon. *)
Definition world_headless_icon : World :=
  with_served [matching_request; mkRequest "/favicon.ico" []] world_headless.
(** A loader that reports every exception itself and swallows it. *)
Definition world_swallowing : World := with_loader_suppresses (λ _, true) example_world.
Definition world_swallowing_503 : World :=
  with_refresh_access_information (λ _, Some (HTTPException 503)) world_swallowing.

Definition response_exhausted : OAuthRateLimiter.Response :=
  OAuthRateLimiter.mkResponse 200 headers_exhausted.
Definition response_without_used : OAuthRateLimiter.Response :=
  OAuthRateLimiter.mkResponse 200 headers_without_used.
Definition response_unmetered : OAuthRateLimiter.Response :=
  OAuthRateLimiter.mkResponse 403 ∅.
Definition headers_available : gmap string string :=
  {[ "x-ratelimit-used" := "1"; "x-ratelimit-remaining" := "599";
     "x-ratelimit-reset" := "30" ]}.
Definition response_available : OAuthRateLimiter.Response :=
  OAuthRateLimiter.mkResponse 200 headers_available.

(** ** Tactics *)

(** Unfolding of the statement monad and of the store updates. *)
Ltac act_unfold :=
  unfold call, emit, modify, skip, get, return_, raise, lift_failure,
    lift_result, mbind, mret, Act_bind, Act_ret in *.
Ltac store_unfold :=
  unfold log, set_params, set_shutdown_on_request, set_server,
    set_refresh_token, set_loader_exception, params_reset,
    set_p_state, set_p_code, set_p_error in *.
Ltac act_simpl :=
  act_unfold; cbn -[String.append]; act_unfold;
  store_unfold; cbn -[String.append].

Ltac solve_quiet :=
  split; [done|]; eexists; split;
  [cbn; rewrite <- ?app_assoc; reflexivity | repeat constructor].

(** Closes [Forall Q evs] for the event lists of the callback phase, for a
    [Q] that computes on constructors. *)
Ltac solve_events :=
  repeat match goal with
         | |- Forall _ (_ ++ _) => apply Forall_app; split
         | |- Forall _ (concat _) => apply Forall_concat
         | |- Forall _ (map _ _) => apply Forall_map, Forall_forall; intros ? _
         | |- Forall _ (request_events _ _ _) => unfold request_events
         | |- Forall _ (response_events _ _ _) => unfold response_events
         | |- Forall _ (if ?b then _ else _) => destruct b
         | |- Forall _ (match ?o with Some _ => _ | None => _ end) => destruct o
         | |- Forall _ [] => apply Forall_nil_2
         | |- Forall _ (_ :: _) => apply Forall_cons; split; [done|]
         end.

(** Case analysis of a membership in an explicit list of events. *)
Ltac elem_cases H :=
  repeat match type of H with
         | _ ∈ [] => by apply elem_of_nil in H
         | _ ∈ _ :: _ => apply elem_of_cons in H as [H|H]
         | _ ∈ (_ ++ _)%list => apply elem_of_app in H as [H|H]
         | _ ∈ (if ?b then _ else _) => destruct b
         | _ ∈ match ?o with Some _ => _ | None => _ end => destruct o
         | _ = _ => first [discriminate H | injection H as H]
         end.

(** ** OAuthHandler: proofs *)

Lemma values_of_cons name value k rest :
  values_of k ((name, value) :: rest)
  = if bool_decide (name = k ∧ value ≠ "")
    then value :: values_of k rest else values_of k rest.
Proof.
  unfold values_of. rewrite filter_cons. cbn.
  destruct (decide (name = k ∧ value ≠ "")) as [H|H].
  - by rewrite bool_decide_eq_true_2.
  - by rewrite bool_decide_eq_false_2.
Qed.

Lemma parse_qs_step_other d name value k :
  ¬ (name = k ∧ value ≠ "") → parse_qs_step d (name, value) !! k = d !! k.
Proof.
  intros Hno. cbn. destruct (String.eqb_spec value "") as [->|Hv]; [done|].
  assert (name ≠ k) by (intros ->; by apply Hno).
  destruct (d !! name); by rewrite lookup_insert_ne.
Qed.

Lemma parse_qs_step_present fields :
  ∀ (d : gmap string (list string)) k l,
    d !! k = Some l →
    foldl parse_qs_step d fields !! k = Some (l ++ values_of k fields)%list.
Proof.
  induction fields as [|[name value] rest IH]; intros d k l Hk.
  - cbn. by rewrite app_nil_r.
  - cbn [foldl]. rewrite values_of_cons. case_bool_decide as Hf.
    + destruct Hf as [-> Hv]. apply String.eqb_neq in Hv.
      erewrite IH; [|cbn; rewrite Hv, Hk; apply lookup_insert_eq].
      by rewrite <- app_assoc.
    + apply IH. by rewrite parse_qs_step_other.
Qed.

Lemma parse_qs_step_absent fields :
  ∀ (d : gmap string (list string)) k,
    d !! k = None →
    foldl parse_qs_step d fields !! k
    = match values_of k fields with
      | [] => None
      | vs => Some vs
      end.
Proof.
  induction fields as [|[name value] rest IH]; intros d k Hk.
  - done.
  - cbn [foldl]. rewrite values_of_cons. case_bool_decide as Hf.
    + destruct Hf as [-> Hv]. apply String.eqb_neq in Hv.
      erewrite parse_qs_step_present;
        [|cbn; rewrite Hv, Hk; apply lookup_insert_eq].
      done.
    + apply IH. by rewrite parse_qs_step_other.
Qed.

Lemma parse_qs_lookup fields k :
  OAuthHandler.parse_qs fields !! k
  = match values_of k fields with
    | [] => None
    | vs => Some vs
    end.
Proof.
  change (OAuthHandler.parse_qs fields) with (foldl parse_qs_step ∅ fields).
  apply parse_qs_step_absent, lookup_empty.
Qed.

Lemma head_values_of k fields :
  head (values_of k fields) = first_nonblank k fields.
Proof.
  induction fields as [|[name value] rest IH]; [done|].
  rewrite values_of_cons. cbn. by case_bool_decide.
Qed.

Lemma first_or_none_parse_qs fields k s :
  OAuthHandler.first_or_none (OAuthHandler.parse_qs fields) k s
  = (Val (first_nonblank k fields), s).
Proof.
  unfold OAuthHandler.first_or_none. rewrite parse_qs_lookup.
  rewrite <- head_values_of. by destruct (values_of k fields).
Qed.

(** [do_GET] in closed form: it never raises, whatever the path is. *)
Lemma do_GET_eq w req s :
  OAuthHandler.do_GET w req s
  = (Val tt,
     mkStore (callback_params req) (shutdown_on_request s) (server s)
       (refresh_token s) (loader_exception s)
       (trace s
          ++ (if bool_decide (path req ≠ "/") then [EvSendError 404] else [])
          ++ response_events w (callback_params req) (shutdown_on_request s))).
Proof.
  unfold OAuthHandler.do_GET, OAuthHandler.build_body, response_events,
    callback_params.
  act_simpl.
  destruct (bool_decide (path req ≠ "/")); cbn -[String.append];
    rewrite !first_or_none_parse_qs; cbn -[String.append];
    destruct (shutdown_on_request s); act_simpl;
    rewrite <- ?app_assoc; reflexivity.
Qed.

(** C2.  For every combination of the three callback parameters, the
    message that [build_body] puts into the page is the one selected by the
    precedence: error equal to "access_denied" gives the denied message;
    error present with any other value gives the provider-error message for
    that error string; state or code absent gives the invalid message;
    otherwise the success message.  First match wins. *)
Theorem build_body_precedence w s :
  ∃ message,
    first_some (message_rules w (params s)) = Some message ∧
    OAuthHandler.build_body w s = (Val (render w message), s).
Proof.
  exists (OAuthHandler.build_body_message w (params s)). split; [|done].
  unfold OAuthHandler.build_body_message, message_rules.
  destruct (params s) as [st co [e|]]; cbn.
  - by destruct (bool_decide (Some e = Some "access_denied")).
  - destruct st, co; cbn;
      (rewrite bool_decide_eq_true_2 by naive_solver)
      || (rewrite bool_decide_eq_false_2 by naive_solver); done.
Qed.

(** The four literal cases, and the precedence of error over state and code. *)
Example message_access_denied :
  OAuthHandler.build_body_message example_world
    (mkParams (Some "abc") (Some "xyz") (Some "access_denied")) = "denied".
Proof. reflexivity. Qed.

Example message_provider_error :
  OAuthHandler.build_body_message example_world
    (mkParams (Some "abc") (Some "xyz") (Some "server_error"))
  = "error: server_error".
Proof. reflexivity. Qed.

Example message_invalid :
  OAuthHandler.build_body_message example_world (mkParams None None None)
  = "invalid" ∧
  OAuthHandler.build_body_message example_world (mkParams (Some "abc") None None)
  = "invalid" ∧
  OAuthHandler.build_body_message example_world (mkParams None (Some "xyz") None)
  = "invalid".
Proof. repeat split. Qed.

Example message_success :
  OAuthHandler.build_body_message example_world
    (mkParams (Some "abc") (Some "xyz") None) = "success".
Proof. reflexivity. Qed.

(** Where the first field of a name has a value, it is the one stored; a
    name that does not occur has none. *)
Lemma first_nonblank_first_occurrence k fields :
  match first_occurrence k fields with
  | Some v => v ≠ "" → first_nonblank k fields = Some v
  | None => first_nonblank k fields = None
  end.
Proof.
  induction fields as [|[name value] rest IH]; [done|]. cbn.
  destruct (decide (name = k)) as [->|Hk].
  - rewrite (bool_decide_eq_true_2 (k = k)) by done.
    intros Hv. by rewrite bool_decide_eq_true_2.
  - rewrite (bool_decide_eq_false_2 (name = k)) by done.
    rewrite bool_decide_eq_false_2 by (by intros [? _]). exact IH.
Qed.

(** C10 (amended).  Whatever the request, [do_GET] returns normally and
    leaves in the shared parameters, for each of state, code and error, the
    value of the first field of that name whose value is not blank; fields
    with a blank value are skipped, later fields of the same name are
    ignored, and a name with no such field is stored as [None]. *)
Theorem do_GET_first_nonblank_occurrence w req s :
  (OAuthHandler.do_GET w req s).1 = Val tt ∧
  params (OAuthHandler.do_GET w req s).2
  = mkParams (first_nonblank "state" (query req))
             (first_nonblank "code" (query req))
             (first_nonblank "error" (query req)).
Proof. by rewrite do_GET_eq. Qed.

(** C10, as stated, fails: in [?state=&state=b] the first occurrence of
    state has the blank value, and [do_GET] stores "b", the value of the
    second occurrence. *)
Lemma do_GET_skips_blank_first_occurrence :
  first_occurrence "state" [("state", ""); ("state", "b")] = Some "" ∧
  params (OAuthHandler.do_GET example_world
            (mkRequest "/" [("state", ""); ("state", "b")]) example_store).2
  = mkParams (Some "b") None None.
Proof. split; reflexivity. Qed.

(** C7.  A request for a path other than "/" is answered with
    [send_error(404)], but [do_GET] does not stop there: the parameters of a
    completed callback (state "abc", code "xyz") are overwritten from the new
    request's query, the result page is built and a second response with
    status 200 and that body is written. *)
Example do_GET_other_path_is_processed :
  OAuthHandler.do_GET example_world
    (mkRequest "/favicon.ico" [("state", "zzz")])
    (set_params (λ _, mkParams (Some "abc") (Some "xyz") None) example_store)
  = (Val tt,
     mkStore (mkParams (Some "zzz") None None) true None None None
       [ EvSendError 404;
         EvSendResponse 200;
         EvSendHeader "Content-Type" (HStr "text/html; charset=UTF-8");
         EvSendHeader "Content-Length" (HInt 14);
         EvEndHeaders;
         EvWrite "<p>invalid</p>";
         EvShutdownThread ]).
Proof. reflexivity. Qed.

(** ** OAuthHelper: proofs *)

Lemma quiet_refl s : quiet s s.
Proof. split; [done|]. exists []. by rewrite app_nil_r. Qed.

Lemma quiet_trans s1 s2 s3 : quiet s1 s2 → quiet s2 s3 → quiet s1 s3.
Proof.
  intros [Ht1 (evs1 & He1 & Hf1)] [Ht2 (evs2 & He2 & Hf2)]. split.
  - congruence.
  - exists (evs1 ++ evs2)%list. split.
    + by rewrite He2, He1, app_assoc.
    + by apply Forall_app.
Qed.

Lemma response_events_quiet w p b :
  Forall (λ e, is_exchange_or_save e = false) (response_events w p b).
Proof. unfold response_events. destruct b; repeat constructor. Qed.

Lemma handle_requests_eq w reqs :
  ∀ s,
    handle_requests w reqs s
    = (Val tt,
       mkStore (served_params reqs (params s)) (shutdown_on_request s)
         (server s) (refresh_token s) (loader_exception s)
         (trace s ++ concat (map (request_events w (shutdown_on_request s)) reqs))).
Proof.
  induction reqs as [|req rest IH]; intros s.
  - cbn. rewrite app_nil_r. by destruct s.
  - cbn [handle_requests]. unfold mbind, Act_bind, try_except.
    rewrite do_GET_eq, IH. cbn. f_equal. f_equal.
    + unfold served_params. rewrite last_cons. by destruct (last rest).
    + unfold request_events. by rewrite <- !app_assoc.
Qed.

Lemma check_and_exchange_params w st s :
  params (OAuthHelper.check_and_exchange w st s).2 = params s.
Proof.
  unfold OAuthHelper.check_and_exchange, OAuthHelper.show_notification, loader.
  act_simpl.
  destruct (bool_decide (p_error (params s) = Some "access_denied")); [done|].
  destruct (truthy (p_error (params s))); [done|].
  destruct (p_state (params s)) as [returned|]; [|done].
  destruct (bool_decide (returned ≠ st)); [done|].
  act_simpl.
  destruct (get_access_information w (p_code (params s))) as [e|[token name]];
    act_simpl.
  - by destruct (loader_suppresses w e).
  - by destruct (persistent w).
Qed.

Lemma check_and_exchange_frame w st s :
  shutdown_on_request (OAuthHelper.check_and_exchange w st s).2
  = shutdown_on_request s ∧
  server (OAuthHelper.check_and_exchange w st s).2 = server s.
Proof.
  unfold OAuthHelper.check_and_exchange, OAuthHelper.show_notification, loader.
  act_simpl.
  destruct (bool_decide (p_error (params s) = Some "access_denied")); [done|].
  destruct (truthy (p_error (params s))); [done|].
  destruct (p_state (params s)) as [returned|]; [|done].
  destruct (bool_decide (returned ≠ st)); [done|].
  act_simpl.
  destruct (get_access_information w (p_code (params s))) as [e|[token name]];
    act_simpl.
  - by destruct (loader_suppresses w e).
  - by destruct (persistent w).
Qed.

Lemma call_eq body s :
  call body s = (call_outcome (body s).1, (body s).2).
Proof. unfold call. by destruct (body s) as [[[]| | |] s']. Qed.

Lemma check_denied w st s :
  p_error (params s) = Some "access_denied" →
  OAuthHelper.check_and_exchange w st s
  = (Ret, log (EvShowNotification "Denied access" (Some "error")) s).
Proof.
  intros He. unfold OAuthHelper.check_and_exchange, OAuthHelper.show_notification.
  act_simpl. by rewrite He.
Qed.

Lemma check_provider_error w st s err :
  p_error (params s) = Some err →
  err ≠ "access_denied" → err ≠ "" →
  OAuthHelper.check_and_exchange w st s
  = (Ret, log (EvShowNotification "Authentication error" (Some "error")) s).
Proof.
  intros He Hd Hn. unfold OAuthHelper.check_and_exchange, OAuthHelper.show_notification.
  act_simpl. rewrite He.
  rewrite bool_decide_eq_false_2 by congruence.
  cbn. apply String.eqb_neq in Hn. by rewrite Hn.
Qed.

Lemma check_no_state w st s :
  truthy (p_error (params s)) = false →
  p_state (params s) = None →
  OAuthHelper.check_and_exchange w st s = (Ret, s).
Proof.
  intros He Hs. unfold OAuthHelper.check_and_exchange, OAuthHelper.show_notification.
  act_simpl. rewrite He, Hs.
  destruct (bool_decide _) eqn:Hb; [|done].
  apply bool_decide_eq_true_1 in Hb. rewrite Hb in He. done.
Qed.

Lemma check_state_mismatch w st s returned :
  truthy (p_error (params s)) = false →
  p_state (params s) = Some returned →
  returned ≠ st →
  OAuthHelper.check_and_exchange w st s
  = (Ret, log (EvShowNotification "UUID mismatch" (Some "error")) s).
Proof.
  intros He Hs Hne.
  unfold OAuthHelper.check_and_exchange, OAuthHelper.show_notification.
  act_simpl. rewrite He, Hs.
  assert (bool_decide (p_error (params s) = Some "access_denied") = false) as ->.
  { apply bool_decide_eq_false_2. intros Hb. rewrite Hb in He. done. }
  by rewrite (bool_decide_eq_true_2 _ Hne).
Qed.

Lemma check_exchange w st s :
  truthy (p_error (params s)) = false →
  p_state (params s) = Some st →
  OAuthHelper.check_and_exchange w st s
  = match get_access_information w (p_code (params s)) with
    | inr (token, user_name) =>
        (Val tt,
         mkStore (params s) (shutdown_on_request s) (server s) (Some token) None
           (trace s
              ++ [EvLoader "Logging in";
                  EvGetAccessInformation (p_code (params s));
                  EvShowNotification ("Welcome " ++ user_name ++ "!") None]
              ++ (if persistent w then [EvSaveRefreshToken] else [])))
    | inl e =>
        ((if loader_suppresses w e then Ret else Exc e),
         mkStore (params s) (shutdown_on_request s) (server s) (refresh_token s)
           (Some e)
           (trace s
              ++ [EvLoader "Logging in";
                  EvGetAccessInformation (p_code (params s))]))
    end.
Proof.
  intros He Hs. unfold OAuthHelper.check_and_exchange, OAuthHelper.show_notification, loader.
  act_simpl. rewrite He, Hs.
  assert (bool_decide (p_error (params s) = Some "access_denied") = false) as ->.
  { apply bool_decide_eq_false_2. intros Hb. rewrite Hb in He. done. }
  rewrite bool_decide_eq_false_2 by (intros Hne; by apply Hne).
  act_simpl.
  destruct (get_access_information w (p_code (params s))) as [e|[token name]];
    act_simpl.
  - destruct (loader_suppresses w e); act_simpl; by rewrite <- !app_assoc.
  - destruct (persistent w); act_simpl; by rewrite <- !app_assoc.
Qed.

(** The checks either turn the callback down, adding at most one error
    notification and nothing else, or go on to the exchange. *)
Lemma check_and_exchange_cases w st s :
  (∃ notes,
     (truthy (p_error (params s)) = true ∨ p_state (params s) ≠ Some st) ∧
     OAuthHelper.check_and_exchange w st s
     = (Ret, mkStore (params s) (shutdown_on_request s) (server s)
               (refresh_token s) (loader_exception s) (trace s ++ notes)) ∧
     Forall (λ e, is_error_notification e = true) notes) ∨
  (truthy (p_error (params s)) = false ∧ p_state (params s) = Some st).
Proof.
  destruct (truthy (p_error (params s))) eqn:Herr.
  - left. destruct (p_error (params s)) as [err|] eqn:He; [|done].
    assert (err ≠ "") as Hn.
    { cbn in Herr. apply negb_true_iff in Herr. by apply String.eqb_neq. }
    destruct (decide (err = "access_denied")) as [->|Hd].
    + eexists. split; [by left|]. rewrite (check_denied w st s He).
      split; [reflexivity|]. by repeat constructor.
    + eexists. split; [by left|].
      rewrite (check_provider_error w st s err He Hd Hn).
      split; [reflexivity|]. by repeat constructor.
  - destruct (p_state (params s)) as [returned|] eqn:Hs.
    + destruct (decide (returned = st)) as [->|Hne]; [by right|].
      left. eexists. split; [right; congruence|].
      rewrite (check_state_mismatch w st s returned Herr Hs Hne).
      split; [reflexivity|]. by repeat constructor.
    + left. exists []. split; [by right|].
      rewrite (check_no_state w st s Herr Hs).
      split; [|done]. rewrite app_nil_r. by destruct s.
Qed.

Lemma check_and_exchange_tail w st s :
  ∃ tail,
    trace (OAuthHelper.check_and_exchange w st s).2 = (trace s ++ tail)%list ∧
    Forall (λ e, is_check_event e = true) tail.
Proof.
  destruct (check_and_exchange_cases w st s)
    as [(notes & _ & Hchk & Hn)|[Herr Hst]].
  - rewrite Hchk. exists notes. split; [done|].
    eapply Forall_impl; [exact Hn|].
    intros e He. destruct e; try discriminate He; done.
  - rewrite (check_exchange w _ _ Herr Hst).
    destruct (get_access_information w _) as [e|[token name]]; cbn;
      eexists; (split; [reflexivity|]); solve_events.
Qed.

Lemma not_in_quiet c evs :
  Forall (λ e, is_exchange_or_save e = false) evs →
  EvGetAccessInformation c ∉ evs.
Proof.
  intros Hf Hin. rewrite Forall_forall in Hf. by apply Hf in Hin.
Qed.

Lemma not_in_notes e notes :
  Forall (λ e, is_error_notification e = true) notes →
  is_error_notification e = false → e ∉ notes.
Proof.
  intros Hf He Hin. rewrite Forall_forall in Hf. apply Hf in Hin. congruence.
Qed.

Lemma not_in_forall (P : event → bool) e evs :
  Forall (λ e, P e = false) evs → P e = true → e ∉ evs.
Proof.
  intros Hf He Hin. rewrite Forall_forall in Hf. apply Hf in Hin. congruence.
Qed.

Lemma tail_forall (P : event → bool) tail :
  (∀ e, is_check_event e = true → P e = false) →
  Forall (λ e, is_check_event e = true) tail →
  Forall (λ e, P e = false) tail.
Proof. intros HP Ht. eapply Forall_impl; [exact Ht|]. exact HP. Qed.

Lemma filter_none (P : event → bool) evs :
  Forall (λ e, P e = false) evs → filter (λ e, P e = true) evs = [].
Proof.
  induction 1 as [|e evs He _ IH]; [done|].
  rewrite filter_cons_False by congruence. exact IH.
Qed.

Lemma notes_not_bind notes :
  Forall (λ e, is_error_notification e = true) notes →
  Forall (λ e, is_bind e = false) notes.
Proof.
  intros Hn. eapply Forall_impl; [exact Hn|].
  intros e He. destruct e; try discriminate He; done.
Qed.

Lemma prepared_quiet w s : quiet s (prepared w s).
Proof. unfold prepared. destruct (server s); solve_quiet. Qed.

Lemma prepared_params w s :
  params (prepared w s) = mkParams None None None.
Proof. unfold prepared. by destruct (server s). Qed.

Lemma prepared_trace w s :
  trace (prepared w s) = (trace s ++ prepare_events w s)%list.
Proof.
  unfold prepared, prepare_events.
  destruct (server s); cbn; by rewrite <- ?app_assoc.
Qed.

Lemma authorize_interactive w s :
  truthy (refresh_token s) = false →
  OAuthHelper.authorize w s
  = call (OAuthHelper.wait_for_callback w
            (get_authorize_url w (uuid4_hex w) (oauth_scope w) true);;
          OAuthHelper.check_and_exchange w (uuid4_hex w)) (prepared w s).
Proof.
  intros Htok. unfold OAuthHelper.authorize, prepared.
  act_simpl. rewrite Htok. act_simpl.
  by destruct (server s).
Qed.

Lemma wait_events_quiet w url :
  Forall (λ e, is_exchange_or_save e = false) (wait_events w url).
Proof. unfold wait_events. solve_events. Qed.

Lemma wait_events_no_bind w url :
  Forall (λ e, is_bind e = false) (wait_events w url).
Proof. unfold wait_events. solve_events. Qed.

Lemma callback_store_quiet w s : quiet s (callback_store w s).
Proof.
  eapply quiet_trans; [apply prepared_quiet|].
  split; [unfold prepared; by destruct (server s)|].
  eexists. split; [reflexivity|apply wait_events_quiet].
Qed.

Lemma wait_for_callback_aborted w s0 e :
  display w = true →
  open_browser w (authorize_url w) = Some e →
  OAuthHelper.wait_for_callback w (authorize_url w) s0
  = ((if loader_suppresses w e then Ret else Exc e),
     mkStore (params s0) true (server s0) (refresh_token s0) (Some e)
       (trace s0 ++ [EvLoader "Opening browser for authorization";
                     EvOpenBrowser (authorize_url w)])).
Proof.
  intros Hd Hb.
  unfold OAuthHelper.wait_for_callback. rewrite Hd.
  unfold mbind, Act_bind, loader. act_simpl. rewrite Hb. act_simpl.
  destruct (loader_suppresses w e); act_simpl; by rewrite <- !app_assoc.
Qed.

(** In every other case the wait leaves the store the checks would start
    from; it ends exactly when it does not block. *)
Lemma wait_for_callback_waited w s0 :
  display w = false ∨ open_browser w (authorize_url w) = None →
  ∃ c,
    OAuthHelper.wait_for_callback w (authorize_url w) s0
    = (c,
       mkStore (served_params (served w) (params s0)) (display w)
         (server s0) (refresh_token s0) None
         (trace s0 ++ wait_events w (authorize_url w))) ∧
    ((c = Val tt ∧ ¬ wait_blocks w) ∨ (c = Hang ∧ wait_blocks w)).
Proof.
  intros Hreach.
  unfold OAuthHelper.wait_for_callback, OAuthHelper.serve_forever,
    OAuthHelper.show_notification, wait_events, wait_blocks.
  destruct (display w).
  - destruct Hreach as [?|Hb]; [done|]. rewrite Hb.
    unfold mbind, Act_bind, loader. act_simpl.
    rewrite handle_requests_eq. cbn.
    destruct (served w) as [|req rest] eqn:Hs; act_simpl.
    + eexists. split; [by rewrite <- !app_assoc|]. by right.
    + eexists. split; [by rewrite <- !app_assoc|]. left.
      split; [done|]. by intros [_ ?].
  - unfold mbind, Act_bind, loader. act_simpl.
    rewrite handle_requests_eq. cbn.
    destruct (open_browser w (authorize_url w)) as [e|]; act_simpl.
    + eexists. split; [by rewrite <- !app_assoc|]. right. eauto.
    + eexists. split; [by rewrite <- !app_assoc|]. left.
      split; [done|]. by intros [? ?].
Qed.

Lemma call_seq_val (m k : Act unit) s s1 :
  m s = (Val tt, s1) → call (m;; k) s = call k s1.
Proof. intros Hm. unfold call, mbind, Act_bind. by rewrite Hm. Qed.

Lemma call_seq_stop (m k : Act unit) s s1 c :
  m s = (c, s1) → c ≠ Val tt → call (m;; k) s = (call_outcome c, s1).
Proof.
  intros Hm Hc. unfold call, mbind, Act_bind. rewrite Hm.
  by destruct c as [[]| | |].
Qed.

(** An interactive attempt reaches the checks, on the store the wait left;
    or blocks forever in the wait, in that store; or was aborted by a
    browser that failed to launch on a display. *)
Lemma authorize_interactive_cases w s :
  truthy (refresh_token s) = false →
  (¬ wait_blocks w ∧
   open_browser w (authorize_url w) = None ∧
   OAuthHelper.authorize w s
   = call (OAuthHelper.check_and_exchange w (uuid4_hex w)) (callback_store w s) ∧
   params (OAuthHelper.authorize w s).2 = params (callback_store w s)) ∨
  (wait_blocks w ∧
   OAuthHelper.authorize w s = (Hang, callback_store w s)) ∨
  (∃ e, display w = true ∧ open_browser w (authorize_url w) = Some e ∧
        OAuthHelper.authorize w s
        = ((if loader_suppresses w e then Val tt else Exc e),
           mkStore (mkParams None None None) true (server (prepared w s))
             (refresh_token s) (Some e)
             (trace (prepared w s)
                ++ [EvLoader "Opening browser for authorization";
                    EvOpenBrowser (authorize_url w)]))).
Proof.
  intros Htok. rewrite (authorize_interactive w s Htok).
  fold (authorize_url w).
  assert (refresh_token (prepared w s) = refresh_token s) as Hrt
    by (unfold prepared; by destruct (server s)).
  destruct (decide (display w = true ∧ is_Some (open_browser w (authorize_url w))))
    as [[Hd [e Hb]]|Hno].
  - right. right. exists e. split; [done|]. split; [done|].
    rewrite (call_seq_stop _ _ _ _ _ (wait_for_callback_aborted w _ e Hd Hb))
      by (by destruct (loader_suppresses w e)).
    rewrite prepared_params, Hrt. by destruct (loader_suppresses w e).
  - assert (display w = false ∨ open_browser w (authorize_url w) = None)
      as Hreach.
    { destruct (display w); [|by left].
      destruct (open_browser w (authorize_url w)); [|by right].
      exfalso. apply Hno. eauto. }
    destruct (wait_for_callback_waited w (prepared w s) Hreach)
      as (c & Hw & Hc).
    rewrite prepared_params, Hrt in Hw. fold (callback_store w s) in Hw.
    destruct Hc as [[-> Hnb]|[-> Hbl]].
    + left. split; [done|].
      assert (open_browser w (authorize_url w) = None) as Hb.
      { destruct Hreach as [Hd|?]; [|done].
        unfold wait_blocks in Hnb. rewrite Hd in Hnb.
        destruct (open_browser w (authorize_url w)); [|done].
        exfalso. apply Hnb. eauto. }
      split; [done|]. rewrite (call_seq_val _ _ _ _ Hw).
      split; [done|]. rewrite call_eq. apply check_and_exchange_params.
    + right. left. split; [done|].
      by rewrite (call_seq_stop _ _ _ _ _ Hw).
Qed.

(** ** The refresh path *)

(** What the failed refresh raises inside the loader. *)
Lemma truthy_token s token :
  refresh_token s = Some token → token ≠ "" → truthy (refresh_token s) = true.
Proof.
  intros -> Hne. cbn. by apply negb_true_iff, String.eqb_neq.
Qed.

Lemma truthy_inv v :
  truthy v = true → ∃ token, v = Some token ∧ token ≠ "".
Proof.
  destruct v as [token|]; [|done]. intros Ht. exists token. split; [done|].
  cbn in Ht. by apply negb_true_iff, String.eqb_neq in Ht.
Qed.

(** The whole refresh path, for a stored token [token]. *)
Lemma authorize_refresh_eq w s token :
  refresh_token s = Some token →
  token ≠ "" →
  OAuthHelper.authorize w s
  = match refresh_access_information w token with
    | None =>
        (Val tt,
         mkStore (mkParams None None None) (shutdown_on_request s) (server s)
           (Some token) None
           (trace s ++ [EvLoader "Logging in"; EvRefreshAccessInformation token]))
    | Some e =>
        ((if loader_suppresses w (refresh_raises e) then Val tt
          else Exc (refresh_raises e)),
         mkStore (mkParams None None None) (shutdown_on_request s) (server s)
           (if authorization_rejected e then None else Some token)
           (Some (refresh_raises e))
           (trace s
              ++ [EvLoader "Logging in"; EvRefreshAccessInformation token]
              ++ (if authorization_rejected e
                  then [EvLogException e; EvClearAuthentication;
                        EvDeleteRefreshToken]
                  else [])))
    end.
Proof.
  intros Htok Hne.
  pose proof (truthy_token s token Htok Hne) as Htruthy.
  unfold OAuthHelper.authorize.
  act_simpl. rewrite Htruthy, Htok.
  unfold loader, try_except. act_simpl.
  destruct (refresh_access_information w token) as [e|]; act_simpl;
    [|by rewrite <- app_assoc].
  unfold OAuthHelper.refresh_rejected, OAuthHelper.clear_oauth_data,
    OAuthHelper.delete_refresh_token, refresh_raises.
  destruct e as [status_code| | | | | | |]; act_simpl;
    repeat case_bool_decide; try done; act_simpl;
    match goal with |- context [loader_suppresses w ?e] =>
      destruct (loader_suppresses w e) end; cbn; by rewrite <- !app_assoc.
Qed.

(** What every refresh attempt has in common: no exchange, no save, no
    server bound, the parameters reset, and it ends. *)
Lemma authorize_refresh_run w s :
  truthy (refresh_token s) = true →
  ∃ evs,
    trace (OAuthHelper.authorize w s).2 = (trace s ++ evs)%list ∧
    Forall (λ e, is_exchange_or_save e = false) evs ∧
    Forall (λ e, is_bind e = false) evs ∧
    Forall (λ e, is_shutdown_thread e = false) evs ∧
    server (OAuthHelper.authorize w s).2 = server s ∧
    shutdown_on_request (OAuthHelper.authorize w s).2 = shutdown_on_request s ∧
    params (OAuthHelper.authorize w s).2 = mkParams None None None.
Proof.
  intros (token & Htok & Hne)%truthy_inv.
  rewrite (authorize_refresh_eq w s token Htok Hne).
  destruct (refresh_access_information w token) as [e|]; cbn.
  - eexists. split; [reflexivity|].
    destruct (authorization_rejected e); repeat split; repeat constructor.
  - eexists. split; [reflexivity|]. repeat split; repeat constructor.
Qed.

(** The token after a refresh attempt: kept, or purged after a rejection. *)
Lemma authorize_refresh_token w s token :
  refresh_token s = Some token →
  token ≠ "" →
  refresh_token (OAuthHelper.authorize w s).2
  = match refresh_access_information w token with
    | Some e => if authorization_rejected e then None else Some token
    | None => Some token
    end.
Proof.
  intros Htok Hne. rewrite (authorize_refresh_eq w s token Htok Hne).
  by destruct (refresh_access_information w token).
Qed.

(** ** The claims about [authorize] *)

(** Parameters other than all-absent at the end of an interactive attempt
    mean the wait ended and the checks ran on them, unless the attempt is
    the one that blocks without a display. *)
Lemma authorize_checked w s :
  truthy (refresh_token s) = false →
  display w = true ∨ open_browser w (authorize_url w) = None →
  params (OAuthHelper.authorize w s).2 ≠ mkParams None None None →
  OAuthHelper.authorize w s
  = call (OAuthHelper.check_and_exchange w (uuid4_hex w)) (callback_store w s) ∧
  params (OAuthHelper.authorize w s).2 = params (callback_store w s).
Proof.
  intros Htok Hends Hne.
  destruct (authorize_interactive_cases w s Htok)
    as [(_ & _ & Hrun & Hpar)|[[Hbl Hrun]|(e & Hd & Hb & Hrun)]]; [done| |].
  - exfalso. unfold wait_blocks in Hbl.
    destruct (display w) eqn:Hd.
    + destruct Hbl as [_ Hs]. apply Hne. rewrite Hrun. cbn.
      unfold served_params. by rewrite Hs.
    + destruct Hends as [?|Hb]; [done|]. rewrite Hb in Hbl.
      by destruct Hbl.
  - rewrite Hrun in Hne. done.
Qed.

(** C1.  An interactive attempt without a display in which launching the
    browser raises, while a callback with a stale state (and no error) is
    delivered: [authorize] logs the exception, shows 'Browser Error' and
    joins the server thread, which nothing has told to stop.  It never gets
    to the check of the state: the parameters hold the stale state, no
    'UUID mismatch' notification is shown, and the call does not return. *)
Example authorize_state_mismatch_blocked :
  uuid4_hex world_headless_stale ≠ "stale" ∧
  OAuthHelper.authorize world_headless_stale example_store
  = (Hang,
     mkStore (mkParams (Some "stale") (Some "xyz") None) false (Some 65000)
       None None
       [ EvGetAuthorizeUrl "0123456789abcdef0123456789abcdef" "read" true;
         EvHTTPServer 65000;
         EvLoader "Redirecting to reddit";
         EvSleep 1;
         EvThreadStart;
         EvOpenBrowser
           "https://www.reddit.com/authorize?state=0123456789abcdef0123456789abcdef";
         EvSendResponse 200;
         EvSendHeader "Content-Type" (HStr "text/html; charset=UTF-8");
         EvSendHeader "Content-Length" (HInt 14);
         EvEndHeaders;
         EvWrite "<p>success</p>";
         EvLogException (OtherException "BrowserError");
         EvShowNotification "Browser Error" (Some "error");
         EvThreadJoin ]).
Proof. split; [discriminate|reflexivity]. Qed.

(** C3 (amended).  With a stored refresh token, when
    [refresh_access_information] fails with [e]: if [e] is an HTTP error
    with status 400 or an OAuth error, [authorize] logs it, calls
    [clear_authentication] and then [delete_refresh_token], which leaves
    [config.refresh_token] empty, and raises [InvalidRefreshToken]; for any
    other [e] it re-raises [e] itself, having called nothing after the one
    refresh attempt and with the token kept.  Either exception is raised
    inside the loader, which records it: the caller of [authorize] sees it
    only when the loader lets it through, otherwise [authorize] returns. *)
Theorem authorize_refresh_failure w s token e :
  refresh_token s = Some token →
  token ≠ "" →
  refresh_access_information w token = Some e →
  OAuthHelper.authorize w s
  = ((if loader_suppresses w (refresh_raises e) then Val tt
      else Exc (refresh_raises e)),
     mkStore (mkParams None None None) (shutdown_on_request s) (server s)
       (if authorization_rejected e then None else Some token)
       (Some (refresh_raises e))
       (trace s
          ++ [EvLoader "Logging in"; EvRefreshAccessInformation token]
          ++ (if authorization_rejected e
              then [EvLogException e; EvClearAuthentication; EvDeleteRefreshToken]
              else []))).
Proof.
  intros Htok Hne Hfail.
  by rewrite (authorize_refresh_eq w s token Htok Hne), Hfail.
Qed.

(** With a loader that swallows what is raised inside it, [authorize]
    raises nothing when the refresh fails: after a rejection (status 400)
    the credentials are purged and the call returns; after a 503 it returns
    as well. *)
Lemma authorize_refresh_failure_swallowed :
  OAuthHelper.authorize world_swallowing
    (set_refresh_token (Some "cached") example_store)
  = (Val tt,
     mkStore (mkParams None None None) true None None
       (Some (InvalidRefreshToken OAuthHelper.invalid_credentials_message))
       [ EvLoader "Logging in"; EvRefreshAccessInformation "cached";
         EvLogException (HTTPException 400);
         EvClearAuthentication; EvDeleteRefreshToken ]) ∧
  OAuthHelper.authorize world_swallowing_503
    (set_refresh_token (Some "cached") example_store)
  = (Val tt,
     mkStore (mkParams None None None) true None (Some "cached")
       (Some (HTTPException 503))
       [ EvLoader "Logging in"; EvRefreshAccessInformation "cached" ]).
Proof. split; reflexivity. Qed.

Lemma authorize_params_fresh w s :
  fresh_params (served w) (params (OAuthHelper.authorize w s).2).
Proof.
  destruct (truthy (refresh_token s)) eqn:Htok.
  - left. by destruct (authorize_refresh_run w s Htok)
      as (evs & _ & _ & _ & _ & _ & _ & Hp).
  - assert (fresh_params (served w) (params (callback_store w s))) as Hcs.
    { unfold callback_store, served_params. cbn.
      destruct (last (served w)) as [req|] eqn:Hlast; [|by left].
      right. exists req. split; [|done].
      apply last_Some in Hlast as [l' ->].
      apply elem_of_app. right. apply list_elem_of_here. }
    destruct (authorize_interactive_cases w s Htok)
      as [(_ & _ & _ & Hpar)|[[_ Hrun]|(e & _ & _ & Hrun)]].
    + by rewrite Hpar.
    + by rewrite Hrun.
    + rewrite Hrun. by left.
Qed.

(** C8.  [authorize] starts by setting all three shared parameters to
    [None]: whatever an earlier attempt left in them, the call behaves
    exactly as it does on a store whose parameters are all absent, and the
    parameters it ends with (those its checks read) are all absent or were
    written by a request served during this call. *)
Theorem authorize_resets_params w s p :
  OAuthHelper.authorize w (set_params (λ _, p) s)
  = OAuthHelper.authorize w (set_params (λ _, mkParams None None None) s) ∧
  fresh_params (served w) (params (OAuthHelper.authorize w s).2).
Proof.
  split; [|apply authorize_params_fresh].
  unfold OAuthHelper.authorize.
  unfold call, mbind, Act_bind, modify. reflexivity.
Qed.

Lemma authorize_refresh_failure_witness :
  OAuthHelper.authorize example_world
    (set_refresh_token (Some "cached") example_store)
  = (Exc (InvalidRefreshToken OAuthHelper.invalid_credentials_message),
     mkStore (mkParams None None None) true None None
       (Some (InvalidRefreshToken OAuthHelper.invalid_credentials_message))
       [ EvLoader "Logging in"; EvRefreshAccessInformation "cached";
         EvLogException (HTTPException 400);
         EvClearAuthentication; EvDeleteRefreshToken ]).
Proof.
  apply (authorize_refresh_failure example_world
           (set_refresh_token (Some "cached") example_store)
           "cached" (HTTPException 400));
    [reflexivity | discriminate | reflexivity].
Defined.

(** ** OAuthRateLimiter: proofs *)

Section Limiter.
Context {F : PyFloat}.
Import OAuthRateLimiter.

Lemma update_absent now hdrs self :
  hdrs !! "x-ratelimit-remaining" = None → update now hdrs self = inr self.
Proof. intros Hr. unfold update. by rewrite Hr. Qed.

Lemma update_parsed now hdrs self u r t used remaining seconds :
  hdrs !! "x-ratelimit-used" = Some u →
  hdrs !! "x-ratelimit-remaining" = Some r →
  hdrs !! "x-ratelimit-reset" = Some t →
  float_of_string u = Some used →
  float_of_string r = Some remaining →
  int_of_string t = Some seconds →
  update now hdrs self
  = if float_le0 remaining
    then if int_overflows_float seconds then inl OverflowError
         else inr (mkRateLimiter (Some (float_add_int now seconds)))
    else inr (mkRateLimiter None).
Proof.
  intros Hu Hr Ht Hpu Hpr Hpt. unfold update, header_float, header_int.
  rewrite Hr, Hu, Ht, Hpu, Hpr, Hpt. cbn.
  by destruct (float_le0 remaining), (int_overflows_float seconds).
Qed.

Lemma delay_keeps_state now self : (delay now self).2 = self.
Proof.
  unfold delay. destruct (next_request_timestamp self); [|done].
  by destruct (float_le0 _).
Qed.

(** C4 (amended).  [update] leaves the limiter as it is when the
    x-ratelimit-remaining header is absent.  When x-ratelimit-used and
    x-ratelimit-remaining are present and parse as floats and
    x-ratelimit-reset is present and parses as an integer, it sets the
    next-request timestamp to the current time plus the seconds to reset
    if remaining <= 0 and the seconds to reset are not too large to be
    added to a float, and clears it if remaining > 0. *)
Theorem update_sets_or_clears now hdrs self :
  (hdrs !! "x-ratelimit-remaining" = None → update now hdrs self = inr self) ∧
  (∀ u r t used remaining seconds,
     hdrs !! "x-ratelimit-used" = Some u →
     hdrs !! "x-ratelimit-remaining" = Some r →
     hdrs !! "x-ratelimit-reset" = Some t →
     float_of_string u = Some used →
     float_of_string r = Some remaining →
     int_of_string t = Some seconds →
     (float_le0 remaining = true →
      int_overflows_float seconds = false →
      update now hdrs self
      = inr (mkRateLimiter (Some (float_add_int now seconds)))) ∧
     (float_gt0 remaining = true →
      update now hdrs self = inr (mkRateLimiter None))).
Proof.
  split; [apply update_absent|].
  intros u r t used remaining seconds Hu Hr Ht Hpu Hpr Hpt.
  rewrite (update_parsed now hdrs self u r t used remaining seconds)
    by done.
  split.
  - by intros -> ->.
  - intros Hgt. by rewrite (float_gt0_not_le0 _ Hgt).
Qed.

(** C5.  [delay] never changes the limiter.  It makes no [time.sleep]
    call when no timestamp is set, or when the timestamp minus the current
    time is <= 0; when that difference is > 0 it makes exactly one
    [time.sleep] call, for that difference. *)
Theorem delay_sleeps now self :
  (delay now self).2 = self ∧
  (next_request_timestamp self = None → (delay now self).1 = []) ∧
  (∀ next,
     next_request_timestamp self = Some next →
     (float_le0 (float_sub next now) = true → (delay now self).1 = []) ∧
     (float_gt0 (float_sub next now) = true →
      (delay now self).1 = [float_sub next now])).
Proof.
  split; [apply delay_keeps_state|]. unfold delay. split.
  - by intros ->.
  - intros next ->. split.
    + by intros ->.
    + intros Hgt. by rewrite (float_gt0_not_le0 _ Hgt).
Qed.

(** C6 (amended).  [update] does not raise when the
    x-ratelimit-remaining header is absent (the limiter is unchanged), nor
    when all three quota headers are present and well-formed and, in case
    remaining <= 0, the seconds to reset are not too large to be added to a
    float; and when the underlying send raises [e], [request] raises that
    same [e] and leaves the limiter as it was. *)
Theorem rate_limiter_raises_only_on_bad_headers :
  (∀ now hdrs self,
     hdrs !! "x-ratelimit-remaining" = None → update now hdrs self = inr self) ∧
  (∀ now hdrs self u r t used remaining seconds,
     hdrs !! "x-ratelimit-used" = Some u →
     hdrs !! "x-ratelimit-remaining" = Some r →
     hdrs !! "x-ratelimit-reset" = Some t →
     float_of_string u = Some used →
     float_of_string r = Some remaining →
     int_of_string t = Some seconds →
     (float_le0 remaining = true → int_overflows_float seconds = false) →
     ∃ self', update now hdrs self = inr self') ∧
  (∀ t1 t2 e self,
     (request t1 t2 (inl e) self).1.2 = inl e ∧
     (request t1 t2 (inl e) self).2 = self).
Proof.
  split; [|split].
  - apply update_absent.
  - intros now hdrs self u r t used remaining seconds Hu Hr Ht Hpu Hpr Hpt Hfit.
    rewrite (update_parsed now hdrs self u r t used remaining seconds)
      by done.
    destruct (float_le0 remaining); [|by eexists].
    rewrite Hfit by done. by eexists.
  - intros t1 t2 e self. unfold request.
    pose proof (delay_keeps_state t1 self) as Hd.
    destruct (delay t1 self) as [sleeps self1]. cbn in *. by subst.
Qed.
End Limiter.

(** C4, as stated, fails: the headers carry remaining "0" and reset "30",
    both well-formed, but no x-ratelimit-used; [update] raises [KeyError]
    and the timestamp is not set to 100 + 30. *)
Lemma update_without_used_header_raises :
  headers_without_used !! "x-ratelimit-remaining" = Some "0" ∧
  float_of_string (PyFloat := whole_seconds) "0" = Some 0 ∧
  float_le0 (PyFloat := whole_seconds) 0 = true ∧
  headers_without_used !! "x-ratelimit-reset" = Some "30" ∧
  int_of_string (PyFloat := whole_seconds) "30" = Some 30 ∧
  OAuthRateLimiter.update (F := whole_seconds) 100 headers_without_used
    (OAuthRateLimiter.mkRateLimiter None)
  = inl (KeyError "x-ratelimit-used").
Proof. repeat split. Qed.

(** C6, as stated, fails: on a header map that holds only
    x-ratelimit-remaining, [update] raises [KeyError]. *)
Lemma update_remaining_only_raises :
  OAuthRateLimiter.update (F := whole_seconds) 100 headers_remaining_only
    (OAuthRateLimiter.mkRateLimiter (F := whole_seconds) (Some 90))
  = inl (KeyError "x-ratelimit-used").
Proof. reflexivity. Qed.

(** With all three headers present and parsing, remaining "0" and a reset
    of 401 digits, [update] raises [OverflowError] at the addition and sets
    no timestamp. *)
Example update_huge_reset_raises :
  int_of_string (PyFloat := whole_seconds) huge_reset = Some (10 ^ 400) ∧
  OAuthRateLimiter.update (F := whole_seconds) 100 headers_huge_reset
    (OAuthRateLimiter.mkRateLimiter None)
  = inl OverflowError.
Proof. split; vm_compute; reflexivity. Qed.

Lemma update_sets_or_clears_witness :
  OAuthRateLimiter.update (F := whole_seconds) 100 headers_exhausted
    (OAuthRateLimiter.mkRateLimiter None)
  = inr (OAuthRateLimiter.mkRateLimiter (F := whole_seconds) (Some 130)).
Proof.
  destruct (update_sets_or_clears (F := whole_seconds) 100 headers_exhausted
              (OAuthRateLimiter.mkRateLimiter None)) as [_ Hpresent].
  destruct (Hpresent "600" "0" "30" 600 0 30) as [Hset _];
    [reflexivity ..|].
  apply Hset; reflexivity.
Defined.

Lemma delay_sleeps_witness :
  (OAuthRateLimiter.delay (F := whole_seconds) 100
     (OAuthRateLimiter.mkRateLimiter (F := whole_seconds) (Some 130))).1 = [30].
Proof.
  destruct (delay_sleeps (F := whole_seconds) 100
              (OAuthRateLimiter.mkRateLimiter (F := whole_seconds) (Some 130))) as (_ & _ & Hset).
  destruct (Hset 130) as [_ Hsleep]; [reflexivity|].
  apply Hsleep. reflexivity.
Defined.

Lemma rate_limiter_raises_only_on_bad_headers_witness :
  ∃ self',
    OAuthRateLimiter.update (F := whole_seconds) 100 headers_exhausted
      (OAuthRateLimiter.mkRateLimiter None) = inr self'.
Proof.
  destruct (rate_limiter_raises_only_on_bad_headers (F := whole_seconds))
    as (_ & Hpresent & _).
  apply (Hpresent 100 headers_exhausted (OAuthRateLimiter.mkRateLimiter None)
           "600" "0" "30" 600 0 30); reflexivity.
Defined.

(** ** fix_cache: proofs *)

Section FixCacheProofs.
Context {K R : Type}.
Import FixCache.

(** C9 (amended).  The normalization maps a key whose items have at
    least five components to the key with the same url and the components
    0, 1, 3 and 4; an absent key stays absent; applied to a key it has
    produced it raises [IndexError] rather than returning that key.  For a
    request whose method is not GET the wrapped handler is called with
    cache_ignore true, whatever the caller passed. *)
Theorem fix_cache_strips_once_and_forces_ignore :
  (∀ url (a b c d e : K) rest,
     strip_cookies (Some (url, a :: b :: c :: d :: e :: rest))
     = inr (Some (url, [a; b; d; e]))) ∧
  strip_cookies (K:=K) None = inr None ∧
  (∀ key key',
     strip_cookies (K:=K) (Some key) = inr key' →
     strip_cookies key' = inl IndexError) ∧
  (∀ (func : option (string * list K) → bool → exn + R) key ignore method,
     method ≠ "GET" →
     fix_cache func key ignore method
     = strip_cookies key ≫= λ key', func key' true).
Proof.
  split; [done|]. split; [done|]. split.
  - intros [url items] key' Hk. unfold strip_cookies in Hk.
    destruct items as [|a [|b [|c [|d [|e rest]]]]]; try discriminate.
    by injection Hk as <-.
  - intros func key ignore method Hm.
    unfold fix_cache, wraps_args, force_ignore.
    rewrite (bool_decide_eq_true_2 _ Hm).
    by destruct (strip_cookies key).
Qed.
End FixCacheProofs.

(** C9, as stated, fails: normalizing a five-component key gives a
    four-component key, and normalizing that key again raises
    [IndexError] instead of giving the same key. *)
Lemma strip_cookies_twice_raises :
  FixCache.strip_cookies (Some ("url", cache_key_items))
  = inr (Some ("url", ["params"; "data"; "auth"; "oauth"])) ∧
  FixCache.strip_cookies (Some ("url", ["params"; "data"; "auth"; "oauth"]))
  = inl IndexError.
Proof. split; reflexivity. Qed.

Lemma fix_cache_strips_once_and_forces_ignore_witness :
  FixCache.fix_cache (λ key ignore, inr (key, ignore))
    (Some ("url", cache_key_items)) false "POST"
  = inr (Some ("url", ["params"; "data"; "auth"; "oauth"]), true).
Proof.
  destruct (fix_cache_strips_once_and_forces_ignore
              (K := string) (R := option (string * list string) * bool))
    as (_ & _ & _ & Hforce).
  rewrite Hforce; [reflexivity | discriminate].
Defined.

(** * Further properties of the module *)

(** ** OAuthHelper.__init__: proofs *)

Lemma prefix_refl s : String.prefix s s = true.
Proof.
  induction s as [|a s IH]; [done|]. cbn.
  by destruct (Ascii.ascii_dec a a).
Qed.

Lemma contains_unfold sub s :
  contains sub s
  = String.prefix sub s ||
    match s with
    | EmptyString => false
    | String _ rest => contains sub rest
    end.
Proof. by destruct s. Qed.

Lemma contains_app_r sub s : contains sub (s ++ sub) = true.
Proof.
  induction s as [|a s IH].
  - change ("" ++ sub) with sub. by rewrite contains_unfold, prefix_refl.
  - change (String a s ++ sub) with (String a (s ++ sub)).
    rewrite (contains_unfold sub (String a (s ++ sub))). cbv iota.
    rewrite IH. apply orb_true_r.
Qed.

(** X12.  The constructor leaves [self.server] unset.  Without a display it
    makes the authorize path contain ".compact", appending it only when it
    is not there yet; with a display, or when the path already contains it,
    the path is unchanged; constructing further helpers afterwards never
    appends it a second time. *)
Theorem init_appends_compact_once display config reddit :
  (OAuthHelperInit.init display config reddit).1 = None ∧
  (display = false →
   contains ".compact"
     (OAuthHelperInit.authorize_path
        (OAuthHelperInit.init display config reddit).2) = true) ∧
  (display = true ∨
   contains ".compact" (OAuthHelperInit.authorize_path reddit) = true →
   OAuthHelperInit.authorize_path (OAuthHelperInit.init display config reddit).2
   = OAuthHelperInit.authorize_path reddit) ∧
  (∀ display' config',
     display = false →
     OAuthHelperInit.authorize_path
       (OAuthHelperInit.init display' config'
          (OAuthHelperInit.init display config reddit).2).2
     = OAuthHelperInit.authorize_path
         (OAuthHelperInit.init display config reddit).2).
Proof.
  unfold OAuthHelperInit.init.
  destruct display,
    (contains ".compact" (OAuthHelperInit.authorize_path reddit)) eqn:Hc;
    cbn; rewrite ?Hc; cbn;
    (split; [done|]); (split; [intros; try done; apply contains_app_r|]);
    (split; [by intros [|]|]);
    intros [] config' Hd; try done; cbn; by rewrite ?Hc, ?contains_app_r.
Qed.

(** ** OAuthHandler: further proofs *)

(** X13.  What [do_GET] does for a request (the parameters it stores, the page
    it writes, every call it makes) does not depend on what the shared
    parameters held before. *)
Theorem do_GET_ignores_old_params w req s p :
  OAuthHandler.do_GET w req (set_params (λ _, p) s) = OAuthHandler.do_GET w req s.
Proof. by rewrite !do_GET_eq. Qed.

(** X14.  For every request [do_GET] writes one response with status 200
    whose body is the page for the parameters it has just stored and whose
    Content-Length is the length of that body, after a 404 when the path is
    not "/", and starts the shutdown thread exactly when
    [shutdown_on_request] is set. *)
Theorem do_GET_response w req s :
  ∃ body,
    body = render w (OAuthHandler.build_body_message w
                       (params (OAuthHandler.do_GET w req s).2)) ∧
    trace (OAuthHandler.do_GET w req s).2
    = (trace s
         ++ (if bool_decide (path req = "/") then [] else [EvSendError 404])
         ++ [EvSendResponse 200;
             EvSendHeader "Content-Type" (HStr "text/html; charset=UTF-8");
             EvSendHeader "Content-Length" (HInt (String.length body));
             EvEndHeaders;
             EvWrite body]
         ++ (if shutdown_on_request s then [EvShutdownThread] else []))%list.
Proof.
  rewrite do_GET_eq. cbn [snd params trace]. eexists. split; [reflexivity|].
  unfold response_events.
  destruct (decide (path req = "/")) as [Hp|Hp].
  - rewrite bool_decide_eq_false_2 by (intros Hn; by apply Hn).
    by rewrite bool_decide_eq_true_2.
  - rewrite bool_decide_eq_true_2 by done.
    by rewrite bool_decide_eq_false_2.
Qed.

(** ** OAuthHelper: further proofs *)

Lemma callback_store_trace w s :
  trace (callback_store w s)
  = (trace s ++ prepare_events w s ++ wait_events w (authorize_url w))%list.
Proof. unfold callback_store. cbn. by rewrite prepared_trace, <- !app_assoc. Qed.

Lemma prepare_wait_quiet w s :
  Forall (λ e, is_exchange_or_save e = false)
    (prepare_events w s ++ wait_events w (authorize_url w)).
Proof. unfold prepare_events, wait_events. solve_events. Qed.

(** Before its checks an attempt notifies nothing, unless it is the one
    whose browser fails to launch without a display. *)
Lemma prepare_wait_no_notification w s :
  display w = true ∨ open_browser w (authorize_url w) = None →
  Forall (λ e, is_notification e = false)
    (prepare_events w s ++ wait_events w (authorize_url w)).
Proof.
  intros Hends. unfold prepare_events, wait_events.
  destruct (display w) eqn:Hd.
  - solve_events.
  - destruct Hends as [?|Hb]; [done|]. rewrite Hb. solve_events.
Qed.

(** X5.  Whatever the world and the store, [authorize] calls
    [get_access_information] only in an interactive attempt whose callback
    state equals the state generated for it and whose error is empty or
    absent, and then with the callback's code. *)
Theorem authorize_exchange_only_on_match w s :
  ∃ evs,
    trace (OAuthHelper.authorize w s).2 = (trace s ++ evs)%list ∧
    ∀ c, EvGetAccessInformation c ∈ evs →
      truthy (refresh_token s) = false ∧
      p_state (params (OAuthHelper.authorize w s).2) = Some (uuid4_hex w) ∧
      truthy (p_error (params (OAuthHelper.authorize w s).2)) = false ∧
      c = p_code (params (OAuthHelper.authorize w s).2).
Proof.
  destruct (truthy (refresh_token s)) eqn:Htok.
  - destruct (authorize_refresh_run w s Htok) as (evs & Htr & Hq & _).
    exists evs. split; [done|]. intros c Hin. by apply not_in_quiet in Hin.
  - destruct (callback_store_quiet w s) as [_ (evs0 & Htr0 & Hq0)].
    destruct (authorize_interactive_cases w s Htok)
      as [(_ & _ & Hrun & Hpar)|[[_ Hrun]|(e & Hd & Hb & Hrun)]].
    + rewrite Hpar. rewrite Hrun, call_eq.
      set (cs := callback_store w s) in *. clearbody cs.
      destruct (check_and_exchange_cases w (uuid4_hex w) cs)
        as [(notes & _ & Hchk & Hn)|[Herr Hst]].
      * rewrite Hchk. cbn. exists (evs0 ++ notes)%list.
        split; [by rewrite Htr0, app_assoc|].
        intros c [Hin|Hin]%elem_of_app.
        -- by apply not_in_quiet in Hin.
        -- by apply not_in_notes in Hin.
      * rewrite (check_exchange w _ _ Herr Hst).
        destruct (get_access_information w _) as [e|[token name]]; cbn;
          eexists; (split; [by rewrite Htr0, <- app_assoc|]);
          intros c [Hin|Hin]%elem_of_app;
          try (by apply not_in_quiet in Hin);
          elem_cases Hin; by subst.
    + rewrite Hrun. cbn. exists evs0. split; [done|].
      intros c Hin. by apply not_in_quiet in Hin.
    + rewrite Hrun. cbn. rewrite prepared_trace.
      eexists. split; [by rewrite <- app_assoc|].
      intros c Hin. unfold prepare_events in Hin. elem_cases Hin.
Qed.

(** X23.  In an interactive attempt (no usable stored refresh
    token) other than one without a display in which launching the browser
    raises, whose callback parameters hold a state that differs from the
    state generated for the attempt, and no error, [authorize] returns
    normally, the last thing it does is show the 'UUID mismatch'
    notification, and among the calls it made there is neither
    [get_access_information] nor [save_refresh_token];
    [config.refresh_token] is what it was.  Nothing writes the shared
    parameters after the wait for the callback, so the parameters the checks
    read are those of the final store. *)
Theorem authorize_state_mismatch w s returned :
  truthy (refresh_token s) = false →
  display w = true ∨ open_browser w (authorize_url w) = None →
  p_state (params (OAuthHelper.authorize w s).2) = Some returned →
  returned ≠ uuid4_hex w →
  p_error (params (OAuthHelper.authorize w s).2) = None →
  ∃ evs,
    (OAuthHelper.authorize w s).1 = Val tt ∧
    trace (OAuthHelper.authorize w s).2
    = (trace s ++ evs ++ [EvShowNotification "UUID mismatch" (Some "error")])%list ∧
    Forall (λ e, is_exchange_or_save e = false) evs ∧
    refresh_token (OAuthHelper.authorize w s).2 = refresh_token s.
Proof.
  intros Htok Hends Hst Hne Herr.
  destruct (authorize_checked w s Htok Hends) as [Hrun Hpar].
  { intros Hp. rewrite Hp in Hst. done. }
  destruct (callback_store_quiet w s) as [Hrt (evs0 & Htr0 & Hq0)].
  rewrite Hpar in *. rewrite Hrun, call_eq.
  set (cs := callback_store w s) in *. clearbody cs.
  assert (truthy (p_error (params cs)) = false) as Herr' by (by rewrite Herr).
  rewrite (check_state_mismatch w _ _ returned Herr' Hst Hne). cbn.
  exists evs0. split; [done|]. split; [|done].
  by rewrite Htr0, <- !app_assoc.
Qed.

(** X2.  In an interactive attempt other than one without a display in
    which launching the browser raises, whose callback parameters hold the
    state generated for the attempt and no error, when
    [get_access_information] returns, [authorize] returns normally with
    [config.refresh_token] set to the returned token; the last calls are the
    exchange of the callback's code, the welcome notification naming the
    user and, only when the persistent setting is on, [save_refresh_token];
    no exchange or save happens before them. *)
Theorem authorize_exchange_success w s token user_name :
  truthy (refresh_token s) = false →
  display w = true ∨ open_browser w (authorize_url w) = None →
  p_state (params (OAuthHelper.authorize w s).2) = Some (uuid4_hex w) →
  truthy (p_error (params (OAuthHelper.authorize w s).2)) = false →
  get_access_information w (p_code (params (OAuthHelper.authorize w s).2))
  = inr (token, user_name) →
  (OAuthHelper.authorize w s).1 = Val tt ∧
  refresh_token (OAuthHelper.authorize w s).2 = Some token ∧
  ∃ evs,
    trace (OAuthHelper.authorize w s).2
    = (trace s ++ evs
         ++ [EvLoader "Logging in";
             EvGetAccessInformation (p_code (params (OAuthHelper.authorize w s).2));
             EvShowNotification ("Welcome " ++ user_name ++ "!") None]
         ++ (if persistent w then [EvSaveRefreshToken] else []))%list ∧
    Forall (λ e, is_exchange_or_save e = false) evs.
Proof.
  intros Htok Hends Hst Herr Hget.
  destruct (authorize_checked w s Htok Hends) as [Hrun Hpar].
  { intros Hp. rewrite Hp in Hst. done. }
  destruct (callback_store_quiet w s) as [_ (evs0 & Htr0 & Hq0)].
  rewrite Hpar in *. rewrite Hrun, call_eq.
  set (cs := callback_store w s) in *. clearbody cs.
  rewrite (check_exchange w _ _ Herr Hst), Hget. cbn.
  split; [done|]. split; [done|].
  exists evs0. split; [|done]. by rewrite Htr0, <- !app_assoc.
Qed.

(** X3.  In the same situation, when [get_access_information] raises [e],
    nothing is stored: [config.refresh_token] is unchanged, the exchange is
    the last call (no welcome notification, no save), and [authorize] returns
    normally if the loader swallows [e] and raises [e] otherwise. *)
Theorem authorize_exchange_failure w s e :
  truthy (refresh_token s) = false →
  display w = true ∨ open_browser w (authorize_url w) = None →
  p_state (params (OAuthHelper.authorize w s).2) = Some (uuid4_hex w) →
  truthy (p_error (params (OAuthHelper.authorize w s).2)) = false →
  get_access_information w (p_code (params (OAuthHelper.authorize w s).2))
  = inl e →
  (OAuthHelper.authorize w s).1
  = (if loader_suppresses w e then Val tt else Exc e) ∧
  refresh_token (OAuthHelper.authorize w s).2 = refresh_token s ∧
  ∃ evs,
    trace (OAuthHelper.authorize w s).2
    = (trace s ++ evs
         ++ [EvLoader "Logging in";
             EvGetAccessInformation
               (p_code (params (OAuthHelper.authorize w s).2))])%list ∧
    Forall (λ e, is_exchange_or_save e = false) evs.
Proof.
  intros Htok Hends Hst Herr Hget.
  destruct (authorize_checked w s Htok Hends) as [Hrun Hpar].
  { intros Hp. rewrite Hp in Hst. done. }
  destruct (callback_store_quiet w s) as [Hrt (evs0 & Htr0 & Hq0)].
  rewrite Hpar in *. rewrite Hrun, call_eq.
  set (cs := callback_store w s) in *. clearbody cs.
  rewrite (check_exchange w _ _ Herr Hst), Hget. cbn.
  split; [by destruct (loader_suppresses w e)|]. split; [done|].
  exists evs0. split; [|done]. by rewrite Htr0, <- !app_assoc.
Qed.

(** X4.  In an interactive attempt other than one without a display in
    which launching the browser raises, when the callback carried a
    non-empty error, [authorize] shows exactly one notification, as its last
    call: 'Denied access' for "access_denied" and 'Authentication error' for
    anything else, whatever state and code came with it; it returns
    normally, exchanges nothing and keeps the token. *)
Theorem authorize_provider_error w s err :
  truthy (refresh_token s) = false →
  display w = true ∨ open_browser w (authorize_url w) = None →
  p_error (params (OAuthHelper.authorize w s).2) = Some err →
  err ≠ "" →
  (OAuthHelper.authorize w s).1 = Val tt ∧
  refresh_token (OAuthHelper.authorize w s).2 = refresh_token s ∧
  ∃ evs,
    trace (OAuthHelper.authorize w s).2
    = (trace s ++ evs
         ++ [EvShowNotification
               (if bool_decide (err = "access_denied")
                then "Denied access" else "Authentication error")
               (Some "error")])%list ∧
    Forall (λ e, is_exchange_or_save e = false) evs ∧
    Forall (λ e, is_notification e = false) evs.
Proof.
  intros Htok Hends Herr Hne.
  destruct (authorize_checked w s Htok Hends) as [Hrun Hpar].
  { intros Hp. rewrite Hp in Herr. done. }
  pose proof (callback_store_trace w s) as Htr0.
  pose proof (prepare_wait_quiet w s) as Hq0.
  pose proof (prepare_wait_no_notification w s Hends) as Hn0.
  assert (refresh_token (callback_store w s) = refresh_token s) as Hrt by done.
  rewrite Hpar in *. rewrite Hrun, call_eq.
  set (cs := callback_store w s) in *. clearbody cs.
  case_bool_decide as Hd.
  - subst err. rewrite (check_denied w _ _ Herr). cbn.
    split; [done|]. split; [done|].
    eexists. split; [|done]. by rewrite Htr0, <- !app_assoc.
  - rewrite (check_provider_error w _ _ err Herr Hd Hne). cbn.
    split; [done|]. split; [done|].
    eexists. split; [|done]. by rewrite Htr0, <- !app_assoc.
Qed.

(** X1.  With a stored refresh token that the client accepts, [authorize]
    makes the one [refresh_access_information] call inside the loader and
    returns: no URL is built, no server is bound, no browser is opened, the
    shared parameters are left all absent and the token is kept. *)
Theorem authorize_refresh_success w s token :
  refresh_token s = Some token →
  token ≠ "" →
  refresh_access_information w token = None →
  OAuthHelper.authorize w s
  = (Val tt,
     mkStore (mkParams None None None) (shutdown_on_request s) (server s)
       (Some token) None
       (trace s ++ [EvLoader "Logging in"; EvRefreshAccessInformation token])).
Proof.
  intros Htok Hne Hok.
  by rewrite (authorize_refresh_eq w s token Htok Hne), Hok.
Qed.

(** X6.  [authorize] changes [config.refresh_token] in two cases only.  A
    silent refresh that the provider rejects (status 400 or an OAuth error)
    deletes the stored token.  An interactive attempt whose callback state
    matched, with no error, and whose exchange returned stores the token the
    exchange returned.  In every other case the token is what it was. *)
Theorem authorize_token_only_from_exchange w s :
  refresh_token (OAuthHelper.authorize w s).2 = refresh_token s ∨
  (∃ token e,
     refresh_token s = Some token ∧ token ≠ "" ∧
     refresh_access_information w token = Some e ∧
     authorization_rejected e = true ∧
     refresh_token (OAuthHelper.authorize w s).2 = None) ∨
  (truthy (refresh_token s) = false ∧
   p_state (params (OAuthHelper.authorize w s).2) = Some (uuid4_hex w) ∧
   truthy (p_error (params (OAuthHelper.authorize w s).2)) = false ∧
   ∃ token user_name,
     get_access_information w (p_code (params (OAuthHelper.authorize w s).2))
     = inr (token, user_name) ∧
     refresh_token (OAuthHelper.authorize w s).2 = Some token).
Proof.
  destruct (truthy (refresh_token s)) eqn:Htok.
  - apply truthy_inv in Htok as (token & Hrt & Hne).
    pose proof (authorize_refresh_token w s token Hrt Hne) as Hafter.
    destruct (refresh_access_information w token) as [e|] eqn:Hfail;
      [|left; congruence].
    destruct (authorization_rejected e) eqn:Hrej; [|left; congruence].
    right. left. exists token, e. done.
  - destruct (callback_store_quiet w s) as [Hrt _].
    destruct (authorize_interactive_cases w s Htok)
      as [(_ & _ & Hrun & Hpar)|[[_ Hrun]|(e & Hd & Hb & Hrun)]].
    + rewrite Hpar. rewrite Hrun, call_eq.
      set (cs := callback_store w s) in *. clearbody cs.
      destruct (check_and_exchange_cases w (uuid4_hex w) cs)
        as [(notes & _ & Hchk & Hn)|[Herr Hst]].
      * left. by rewrite Hchk.
      * rewrite (check_exchange w _ _ Herr Hst).
        destruct (get_access_information w _) as [e|[token name]] eqn:Hget; cbn.
        -- by left.
        -- right. right. split; [done|]. split; [done|]. split; [done|]. eauto.
    + left. by rewrite Hrun.
    + left. by rewrite Hrun.
Qed.

(** X7.  The callback server is bound lazily and never rebound: a call of
    [authorize] creates an [HTTPServer] exactly once when none is bound and
    the attempt is interactive, and not at all otherwise; a bound server stays
    the one it was. *)
Theorem authorize_binds_server_once w s :
  server (OAuthHelper.authorize w s).2
  = match server s with
    | Some port => Some port
    | None =>
        if truthy (refresh_token s) then None
        else Some (oauth_redirect_port w)
    end ∧
  ∃ evs,
    trace (OAuthHelper.authorize w s).2 = (trace s ++ evs)%list ∧
    filter (λ e, is_bind e = true) evs
    = match server s with
      | Some _ => []
      | None =>
          if truthy (refresh_token s) then []
          else [EvHTTPServer (oauth_redirect_port w)]
      end.
Proof.
  destruct (truthy (refresh_token s)) eqn:Htok.
  - destruct (authorize_refresh_run w s Htok)
      as (evs & Htr & _ & Hnb & _ & Hsrv & _).
    split; [rewrite Hsrv; by destruct (server s)|].
    exists evs. split; [done|].
    rewrite (filter_none _ _ Hnb). by destruct (server s).
  - assert (server (prepared w s)
            = match server s with
              | Some port => Some port
              | None => Some (oauth_redirect_port w)
              end) as Hsrv
      by (unfold prepared; destruct (server s) eqn:E; cbn; by rewrite ?E).
    assert (filter (λ e, is_bind e = true) (prepare_events w s)
            = match server s with
              | Some _ => []
              | None => [EvHTTPServer (oauth_redirect_port w)]
              end) as Hpre
      by (unfold prepare_events; by destruct (server s)).
    pose proof (callback_store_trace w s) as Htr0.
    pose proof (filter_none _ _ (wait_events_no_bind w (authorize_url w)))
      as Hwait.
    destruct (authorize_interactive_cases w s Htok)
      as [(_ & _ & Hrun & _)|[[_ Hrun]|(e & Hd & Hb & Hrun)]].
    + rewrite Hrun, call_eq.
      pose proof (check_and_exchange_frame w (uuid4_hex w) (callback_store w s))
        as [_ Hframe].
      split; [cbn; by rewrite Hframe|].
      set (cs := callback_store w s) in *. clearbody cs.
      destruct (check_and_exchange_cases w (uuid4_hex w) cs)
        as [(notes & _ & Hchk & Hn)|[Herr Hst]].
      * rewrite Hchk. cbn. eexists. split; [by rewrite Htr0, <- !app_assoc|].
        rewrite !filter_app, Hpre, Hwait.
        rewrite (filter_none _ _ (notes_not_bind _ Hn)).
        by rewrite !app_nil_r.
      * rewrite (check_exchange w _ _ Herr Hst).
        destruct (get_access_information w _) as [e|[token name]]; cbn;
          (eexists; split; [by rewrite Htr0, <- !app_assoc|]);
          rewrite !filter_app, Hpre, Hwait;
          destruct (server s), (persistent w); done.
    + rewrite Hrun. cbn [snd]. split; [done|].
      eexists. split; [by rewrite Htr0|].
      rewrite !filter_app, Hpre, Hwait. by rewrite app_nil_r.
    + rewrite Hrun. cbn. split; [done|].
      rewrite prepared_trace.
      eexists. split; [by rewrite <- !app_assoc|].
      rewrite !filter_app, Hpre. by destruct (server s).
Qed.

(** X9.  With a display, when [open_browser] raises [e] the attempt ends
    inside the loader: the accept loop is not entered, no request is handled,
    nothing is notified or exchanged, the shared parameters stay absent and
    the loader holds [e]; [authorize] returns if the loader swallows [e] and
    raises it otherwise. *)
Theorem authorize_browser_failure_on_display w s e :
  truthy (refresh_token s) = false →
  display w = true →
  open_browser w (get_authorize_url w (uuid4_hex w) (oauth_scope w) true)
  = Some e →
  OAuthHelper.authorize w s
  = ((if loader_suppresses w e then Val tt else Exc e),
     mkStore (mkParams None None None) true
       (Some (default (oauth_redirect_port w) (server s)))
       (refresh_token s) (Some e)
       (trace s
          ++ [EvGetAuthorizeUrl (uuid4_hex w) (oauth_scope w) true]
          ++ match server s with
             | None => [EvHTTPServer (oauth_redirect_port w)]
             | Some _ => []
             end
          ++ [EvLoader "Opening browser for authorization";
              EvOpenBrowser
                (get_authorize_url w (uuid4_hex w) (oauth_scope w) true)])).
Proof.
  intros Htok Hd Hb.
  destruct (authorize_interactive_cases w s Htok)
    as [(_ & Hb' & _)|[[Hbl _]|(e' & _ & Hb' & Hrun)]].
  - unfold authorize_url in Hb'. congruence.
  - unfold wait_blocks, authorize_url in Hbl. rewrite Hd, Hb in Hbl.
    by destruct Hbl.
  - unfold authorize_url in Hb'. rewrite Hb in Hb'. injection Hb' as <-.
    rewrite Hrun, prepared_trace.
    unfold prepare_events, authorize_url, prepared.
    destruct (server s) eqn:Hsrv; cbn; rewrite ?Hsrv, <- ?app_assoc; done.
Qed.

(** X10.  Without a display, when [open_browser] raises [e], [authorize]
    never returns: the exception is logged, 'Browser Error' is notified and
    the server thread is joined without [server.shutdown()] having been
    called, so the join blocks.  None of the checks of the callback
    parameters follows: nothing else is notified, nothing is exchanged or
    saved, and the token is what it was. *)
Theorem authorize_browser_failure_headless w s e :
  truthy (refresh_token s) = false →
  display w = false →
  open_browser w (get_authorize_url w (uuid4_hex w) (oauth_scope w) true)
  = Some e →
  (OAuthHelper.authorize w s).1 = Hang ∧
  refresh_token (OAuthHelper.authorize w s).2 = refresh_token s ∧
  ∃ before,
    trace (OAuthHelper.authorize w s).2
    = (trace s ++ before
         ++ [EvLogException e;
             EvShowNotification "Browser Error" (Some "error");
             EvThreadJoin])%list ∧
    (EvServerShutdown ∉ before) ∧
    Forall (λ e, is_notification e = false) before ∧
    Forall (λ e, is_exchange_or_save e = false) before.
Proof.
  intros Htok Hd Hb.
  assert (wait_blocks w) as Hbl.
  { unfold wait_blocks, authorize_url. rewrite Hd, Hb. eauto. }
  destruct (authorize_interactive_cases w s Htok)
    as [(Hnb & _)|[[_ Hrun]|(e' & Hd' & _)]]; [done| |congruence].
  rewrite Hrun. cbn [fst snd]. split; [done|]. split; [done|].
  rewrite callback_store_trace. unfold wait_events, authorize_url.
  rewrite Hd, Hb.
  exists (prepare_events w s
            ++ [EvLoader "Redirecting to reddit"; EvSleep 1; EvThreadStart;
                EvOpenBrowser
                  (get_authorize_url w (uuid4_hex w) (oauth_scope w) true)]
            ++ concat (map (request_events w false) (served w)))%list.
  split; [by rewrite <- !app_assoc|].
  split; [|split].
  - apply (not_in_forall is_server_shutdown_call); [|done].
    unfold prepare_events. solve_events.
  - unfold prepare_events. solve_events.
  - unfold prepare_events. solve_events.
Qed.

(** X8.  An interactive attempt leaves [OAuthHandler.shutdown_on_request]
    equal to [term.display], whatever it was before; without a display no
    handled request starts the shutdown thread. *)
Theorem authorize_shutdown_mode w s :
  truthy (refresh_token s) = false →
  shutdown_on_request (OAuthHelper.authorize w s).2 = display w ∧
  ∃ evs,
    trace (OAuthHelper.authorize w s).2 = (trace s ++ evs)%list ∧
    (display w = false → EvShutdownThread ∉ evs).
Proof.
  intros Htok.
  assert (display w = false →
          Forall (λ e, is_shutdown_thread e = false)
            (prepare_events w s ++ wait_events w (authorize_url w))) as Hquiet.
  { intros Hd. unfold wait_events, prepare_events. rewrite Hd. solve_events. }
  destruct (authorize_interactive_cases w s Htok)
    as [(_ & _ & Hrun & _)|[[_ Hrun]|(e & Hd & Hb & Hrun)]].
  - rewrite Hrun, call_eq. cbn [snd].
    destruct (check_and_exchange_frame w (uuid4_hex w) (callback_store w s))
      as [-> _].
    split; [done|].
    destruct (check_and_exchange_tail w (uuid4_hex w) (callback_store w s))
      as (tail & -> & Htail).
    rewrite callback_store_trace.
    eexists. split; [by rewrite <- !app_assoc|].
    intros Hd. apply (not_in_forall is_shutdown_thread); [|done].
    rewrite app_assoc. apply Forall_app. split; [by apply Hquiet|].
    apply tail_forall; [|done]. by intros [].
  - rewrite Hrun. cbn [snd]. split; [done|].
    rewrite callback_store_trace.
    eexists. split; [done|].
    intros Hd. apply (not_in_forall is_shutdown_thread); [|done].
    by apply Hquiet.
  - rewrite Hrun. cbn. split; [done|]. rewrite prepared_trace.
    eexists. split; [by rewrite <- !app_assoc|].
    intros Hf. congruence.
Qed.

(** X11.  When the browser was launched and the server handled at least one
    request, the wait for the callback ends, and the parameters [authorize]
    checks are those of the last request handled: a request that follows the
    provider's redirect replaces its state, code and error. *)
Theorem authorize_checks_last_request w s req :
  truthy (refresh_token s) = false →
  open_browser w (get_authorize_url w (uuid4_hex w) (oauth_scope w) true)
  = None →
  last (served w) = Some req →
  (OAuthHelper.authorize w s).1 ≠ Hang ∧
  params (OAuthHelper.authorize w s).2 = callback_params req.
Proof.
  intros Htok Hb Hlast.
  assert (params (callback_store w s) = callback_params req) as Hp.
  { unfold callback_store, served_params. cbn. by rewrite Hlast. }
  destruct (authorize_interactive_cases w s Htok)
    as [(_ & _ & Hrun & Hpar)|[[Hbl _]|(e' & _ & Hb' & _)]].
  - split; [|congruence].
    rewrite Hrun, call_eq.
    destruct (OAuthHelper.check_and_exchange w (uuid4_hex w) (callback_store w s))
      as [c s'] eqn:Hchk.
    assert (c ≠ Hang) as Hc.
    { intros ->.
      destruct (check_and_exchange_cases w (uuid4_hex w) (callback_store w s))
        as [(notes & _ & Hrun' & _)|[Herr Hst]]; [congruence|].
      rewrite (check_exchange w _ _ Herr Hst) in Hchk.
      destruct (get_access_information w _) as [e|[token name]];
        [destruct (loader_suppresses w e)|]; cbn in Hchk; congruence. }
    by destruct c as [[]| | |].
  - exfalso. unfold wait_blocks, authorize_url in Hbl. rewrite Hb in Hbl.
    destruct (display w).
    + destruct Hbl as [_ Hs]. by rewrite Hs in Hlast.
    + by destruct Hbl.
  - unfold authorize_url in Hb'. congruence.
Qed.

(** X22.  After an interactive attempt (other than one without a display in
    which launching the browser raises) that ended with a successful
    exchange returning a non-empty token, the next [authorize] call is a
    silent refresh with exactly that token: when the client accepts it, the
    call makes the one refresh call and returns, with the server left bound
    as it was and no browser opened. *)
Theorem authorize_exchange_then_refresh w1 w2 s token user_name :
  truthy (refresh_token s) = false →
  display w1 = true ∨ open_browser w1 (authorize_url w1) = None →
  p_state (params (OAuthHelper.authorize w1 s).2) = Some (uuid4_hex w1) →
  truthy (p_error (params (OAuthHelper.authorize w1 s).2)) = false →
  get_access_information w1 (p_code (params (OAuthHelper.authorize w1 s).2))
  = inr (token, user_name) →
  token ≠ "" →
  refresh_access_information w2 token = None →
  (OAuthHelper.authorize w1 s).1 = Val tt ∧
  OAuthHelper.authorize w2 (OAuthHelper.authorize w1 s).2
  = (Val tt,
     mkStore (mkParams None None None)
       (shutdown_on_request (OAuthHelper.authorize w1 s).2)
       (server (OAuthHelper.authorize w1 s).2)
       (Some token) None
       (trace (OAuthHelper.authorize w1 s).2
          ++ [EvLoader "Logging in"; EvRefreshAccessInformation token])).
Proof.
  intros Htok Hends Hst Herr Hget Hne Hok.
  assert ((OAuthHelper.authorize w1 s).1 = Val tt ∧
          refresh_token (OAuthHelper.authorize w1 s).2 = Some token)
    as [Hout Hrt].
  { destruct (authorize_checked w1 s Htok Hends) as [Hrun Hpar].
    { intros Hp. rewrite Hp in Hst. done. }
    rewrite Hpar in *. rewrite Hrun, call_eq.
    set (cs := callback_store w1 s) in *. clearbody cs.
    by rewrite (check_exchange w1 _ _ Herr Hst), Hget. }
  split; [done|].
  set (s1 := (OAuthHelper.authorize w1 s).2) in *. clearbody s1.
  by rewrite (authorize_refresh_eq w2 s1 token Hrt Hne), Hok.
Qed.

(** ** Concrete runs of the further properties *)

Lemma authorize_refresh_success_witness :
  OAuthHelper.authorize world_refresh_ok
    (set_refresh_token (Some "cached") example_store)
  = (Val tt,
     mkStore (mkParams None None None) true None (Some "cached") None
       [EvLoader "Logging in"; EvRefreshAccessInformation "cached"]).
Proof.
  apply (authorize_refresh_success world_refresh_ok
           (set_refresh_token (Some "cached") example_store) "cached");
    [reflexivity | discriminate | reflexivity].
Defined.

Lemma authorize_state_mismatch_witness :
  ∃ evs,
    (OAuthHelper.authorize example_world example_store).1 = Val tt ∧
    trace (OAuthHelper.authorize example_world example_store).2
    = (trace example_store ++ evs
         ++ [EvShowNotification "UUID mismatch" (Some "error")])%list ∧
    Forall (λ e, is_exchange_or_save e = false) evs ∧
    refresh_token (OAuthHelper.authorize example_world example_store).2
    = refresh_token example_store.
Proof.
  apply (authorize_state_mismatch example_world example_store "stale");
    [reflexivity | left; reflexivity | reflexivity | discriminate | reflexivity].
Defined.

Lemma authorize_exchange_success_witness :
  refresh_token (OAuthHelper.authorize world_matching example_store).2
  = Some "token".
Proof.
  refine (proj1 (proj2 (authorize_exchange_success world_matching
                          example_store "token" "user" _ _ _ _ _)));
    [reflexivity | left; reflexivity | reflexivity | reflexivity | reflexivity].
Defined.

Lemma authorize_exchange_failure_witness :
  (OAuthHelper.authorize world_exchange_fails example_store).1
  = Exc OAuthException ∧
  refresh_token (OAuthHelper.authorize world_exchange_fails example_store).2
  = None.
Proof.
  pose proof (authorize_exchange_failure world_exchange_fails example_store
                OAuthException eq_refl (or_introl eq_refl)
                eq_refl eq_refl eq_refl)
    as (Hout & Htok & _).
  split; [exact Hout | exact Htok].
Defined.

Lemma authorize_provider_error_witness :
  (OAuthHelper.authorize world_denied example_store).1 = Val tt.
Proof.
  refine (proj1 (authorize_provider_error world_denied example_store
                   "access_denied" _ _ _ _));
    [reflexivity | left; reflexivity | reflexivity | discriminate].
Defined.

Lemma authorize_shutdown_mode_witness :
  shutdown_on_request
    (OAuthHelper.authorize world_headless_no_browser example_store).2 = false.
Proof.
  exact (proj1 (authorize_shutdown_mode world_headless_no_browser
                  example_store eq_refl)).
Defined.

Lemma authorize_browser_failure_on_display_witness :
  OAuthHelper.authorize world_no_browser example_store
  = (Exc (OtherException "BrowserError"),
     mkStore (mkParams None None None) true (Some 65000) None
       (Some (OtherException "BrowserError"))
       [ EvGetAuthorizeUrl "0123456789abcdef0123456789abcdef" "read" true;
         EvHTTPServer 65000;
         EvLoader "Opening browser for authorization";
         EvOpenBrowser
           "https://www.reddit.com/authorize?state=0123456789abcdef0123456789abcdef" ]).
Proof.
  apply (authorize_browser_failure_on_display world_no_browser example_store
           (OtherException "BrowserError")); reflexivity.
Defined.

Lemma authorize_browser_failure_headless_witness :
  (OAuthHelper.authorize world_headless_no_browser example_store).1 = Hang ∧
  refresh_token (OAuthHelper.authorize world_headless_no_browser example_store).2
  = refresh_token example_store ∧
  ∃ before,
    trace (OAuthHelper.authorize world_headless_no_browser example_store).2
    = (trace example_store ++ before
         ++ [EvLogException (OtherException "BrowserError");
             EvShowNotification "Browser Error" (Some "error");
             EvThreadJoin])%list ∧
    (EvServerShutdown ∉ before) ∧
    Forall (λ e, is_notification e = false) before ∧
    Forall (λ e, is_exchange_or_save e = false) before.
Proof.
  apply (authorize_browser_failure_headless world_headless_no_browser
           example_store (OtherException "BrowserError")); reflexivity.
Defined.

Lemma authorize_checks_last_request_witness :
  (OAuthHelper.authorize world_headless_icon example_store).1 ≠ Hang ∧
  params (OAuthHelper.authorize world_headless_icon example_store).2
  = mkParams None None None.
Proof.
  apply (authorize_checks_last_request world_headless_icon example_store
           (mkRequest "/favicon.ico" []));
    reflexivity.
Defined.

Lemma authorize_exchange_then_refresh_witness :
  (OAuthHelper.authorize world_refresh_ok
     (OAuthHelper.authorize world_matching example_store).2).1 = Val tt ∧
  server (OAuthHelper.authorize world_refresh_ok
            (OAuthHelper.authorize world_matching example_store).2).2
  = Some 65000.
Proof.
  rewrite (proj2 (authorize_exchange_then_refresh world_matching
             world_refresh_ok example_store "token" "user"
             eq_refl (or_introl eq_refl) eq_refl eq_refl eq_refl
             ltac:(discriminate) eq_refl)).
  split; reflexivity.
Defined.

(** ** OAuthRateLimiter: further proofs *)

Section LimiterMore.
Context {F : PyFloat}.
Import OAuthRateLimiter.

Lemma header_float_inv hdrs k e :
  header_float hdrs k = inl e →
  (hdrs !! k = None ∧ e = KeyError k) ∨
  (∃ v, hdrs !! k = Some v ∧ float_of_string v = None ∧ e = ValueError v).
Proof.
  unfold header_float. destruct (hdrs !! k) as [v|]; [|naive_solver].
  destruct (float_of_string v) eqn:Hv; [done|]. naive_solver.
Qed.

Lemma header_int_inv hdrs k e :
  header_int hdrs k = inl e →
  (hdrs !! k = None ∧ e = KeyError k) ∨
  (∃ v, hdrs !! k = Some v ∧ int_of_string v = None ∧ e = ValueError v).
Proof.
  unfold header_int. destruct (hdrs !! k) as [v|]; [|naive_solver].
  destruct (int_of_string v) eqn:Hv; [done|]. naive_solver.
Qed.

Lemma header_float_val hdrs k x :
  header_float hdrs k = inr x →
  ∃ v, hdrs !! k = Some v ∧ float_of_string v = Some x.
Proof.
  unfold header_float. destruct (hdrs !! k) as [v|]; [|done].
  destruct (float_of_string v) eqn:Hv; [|done]. naive_solver.
Qed.

Lemma header_int_val hdrs k n :
  header_int hdrs k = inr n →
  ∃ v, hdrs !! k = Some v ∧ int_of_string v = Some n.
Proof.
  unfold header_int. destruct (hdrs !! k) as [v|]; [|done].
  destruct (int_of_string v) eqn:Hv; [|done]. naive_solver.
Qed.

(** X15.  [update] raises only when x-ratelimit-remaining is present, and
    then only [KeyError] for a missing x-ratelimit-used or x-ratelimit-reset,
    [ValueError] carrying the value of a quota header that does not parse,
    or [OverflowError] when all three parse, remaining is <= 0 and the
    seconds to reset are too large to be added to a float. *)
Theorem update_raises_on_bad_quota_header now hdrs self e :
  update now hdrs self = inl e →
  is_Some (hdrs !! "x-ratelimit-remaining") ∧
  ((hdrs !! "x-ratelimit-used" = None ∧ e = KeyError "x-ratelimit-used") ∨
   (hdrs !! "x-ratelimit-reset" = None ∧ e = KeyError "x-ratelimit-reset") ∨
   (∃ k v, k ∈ ["x-ratelimit-used"; "x-ratelimit-remaining"] ∧
           hdrs !! k = Some v ∧ float_of_string v = None ∧ e = ValueError v) ∨
   (∃ v, hdrs !! "x-ratelimit-reset" = Some v ∧ int_of_string v = None ∧
         e = ValueError v) ∨
   (∃ u r t used remaining seconds,
      hdrs !! "x-ratelimit-used" = Some u ∧
      float_of_string u = Some used ∧
      hdrs !! "x-ratelimit-remaining" = Some r ∧
      float_of_string r = Some remaining ∧
      hdrs !! "x-ratelimit-reset" = Some t ∧
      int_of_string t = Some seconds ∧
      float_le0 remaining = true ∧
      int_overflows_float seconds = true ∧
      e = OverflowError)).
Proof.
  unfold update. destruct (hdrs !! "x-ratelimit-remaining") as [r|] eqn:Hr;
    [|done].
  intros Hup. split; [eauto|].
  destruct (header_float hdrs "x-ratelimit-used") as [e1|used] eqn:Hu; cbn in Hup.
  { injection Hup as <-.
    destruct (header_float_inv _ _ _ Hu) as [[? ?]|(v & ? & ? & ?)].
    - by left.
    - right. right. left. exists "x-ratelimit-used", v.
      split; [apply list_elem_of_here|done]. }
  destruct (header_float hdrs "x-ratelimit-remaining") as [e2|rem] eqn:Hrem;
    cbn in Hup.
  { injection Hup as <-.
    destruct (header_float_inv _ _ _ Hrem) as [[? ?]|(v & ? & ? & ?)].
    - congruence.
    - right. right. left. exists "x-ratelimit-remaining", v.
      split; [apply list_elem_of_further, list_elem_of_here|done]. }
  destruct (header_int hdrs "x-ratelimit-reset") as [e3|secs] eqn:Hs;
    cbn in Hup.
  { injection Hup as <-.
    destruct (header_int_inv _ _ _ Hs) as [[? ?]|(v & ? & ? & ?)].
    - right. by left.
    - right. right. right. left. by exists v. }
  destruct (float_le0 rem) eqn:Hle; [|done].
  destruct (int_overflows_float secs) eqn:Hov; [|done].
  injection Hup as <-.
  apply header_float_val in Hu as (u & Hu & Hpu).
  apply header_float_val in Hrem as (r' & Hr' & Hpr).
  apply header_int_val in Hs as (t & Ht & Hpt).
  right. right. right. right.
  exists u, r', t, used, rem, secs. repeat split; first [assumption|reflexivity|congruence].
Qed.

(** X16.  When the send succeeds but the response has x-ratelimit-remaining
    and no x-ratelimit-used, [request] raises [KeyError] instead of returning
    the response, after the usual delay, and the limiter is unchanged. *)
Theorem request_drops_response_without_used t1 t2 response self r :
  headers response !! "x-ratelimit-remaining" = Some r →
  headers response !! "x-ratelimit-used" = None →
  request t1 t2 (inr response) self
  = ((delay t1 self).1, inl (KeyError "x-ratelimit-used"), self).
Proof.
  intros Hr Hu. unfold request.
  pose proof (delay_keeps_state t1 self) as Hd.
  destruct (delay t1 self) as [sleeps self1]. cbn in *. subst self1.
  unfold update, header_float. by rewrite Hr, Hu.
Qed.

(** X17.  When the response has no x-ratelimit-remaining header, [request]
    returns it and leaves the limiter as it was, a pending timestamp
    included. *)
Theorem request_unmetered_keeps_state t1 t2 response self :
  headers response !! "x-ratelimit-remaining" = None →
  request t1 t2 (inr response) self = ((delay t1 self).1, inr response, self).
Proof.
  intros Hr. unfold request.
  pose proof (delay_keeps_state t1 self) as Hd.
  destruct (delay t1 self) as [sleeps self1]. cbn in *. subst self1.
  by rewrite (update_absent _ _ _ Hr).
Qed.

Lemma request_parsed t1 t2 response self u r t used remaining seconds :
  headers response !! "x-ratelimit-used" = Some u →
  headers response !! "x-ratelimit-remaining" = Some r →
  headers response !! "x-ratelimit-reset" = Some t →
  float_of_string u = Some used →
  float_of_string r = Some remaining →
  int_of_string t = Some seconds →
  float_le0 remaining = true → int_overflows_float seconds = false →
  request t1 t2 (inr response) self
  = ((delay t1 self).1, inr response,
     mkRateLimiter (Some (float_add_int t2 seconds))).
Proof.
  intros Hu Hr Ht Hpu Hpr Hpt Hle Hfit. unfold request.
  pose proof (delay_keeps_state t1 self) as Hd.
  destruct (delay t1 self) as [sleeps self1]. cbn in *. subst self1.
  by rewrite (update_parsed _ _ _ _ _ _ _ _ _ Hu Hr Ht Hpu Hpr Hpt), Hle, Hfit.
Qed.

Lemma request_parsed_left t1 t2 response self u r t used remaining seconds :
  headers response !! "x-ratelimit-used" = Some u →
  headers response !! "x-ratelimit-remaining" = Some r →
  headers response !! "x-ratelimit-reset" = Some t →
  float_of_string u = Some used →
  float_of_string r = Some remaining →
  int_of_string t = Some seconds →
  float_le0 remaining = false →
  request t1 t2 (inr response) self
  = ((delay t1 self).1, inr response, mkRateLimiter None).
Proof.
  intros Hu Hr Ht Hpu Hpr Hpt Hle. unfold request.
  pose proof (delay_keeps_state t1 self) as Hd.
  destruct (delay t1 self) as [sleeps self1]. cbn in *. subst self1.
  by rewrite (update_parsed _ _ _ _ _ _ _ _ _ Hu Hr Ht Hpu Hpr Hpt), Hle.
Qed.

Lemma request_sleeps t1 t2 send self :
  (request t1 t2 send self).1.1 = (delay t1 self).1.
Proof.
  unfold request. destruct (delay t1 self) as [sleeps self1].
  destruct send as [e|response]; [done|].
  by destruct (update t2 (headers response) self1).
Qed.

(** X18.  After a request whose response reported remaining > 0, the next
    request does not sleep, whatever timestamp was pending before. *)
Theorem request_after_quota_left t1 t2 t3 t4 response send self
    u r t used remaining seconds :
  headers response !! "x-ratelimit-used" = Some u →
  headers response !! "x-ratelimit-remaining" = Some r →
  headers response !! "x-ratelimit-reset" = Some t →
  float_of_string u = Some used →
  float_of_string r = Some remaining →
  int_of_string t = Some seconds →
  float_gt0 remaining = true →
  (request t3 t4 send (request t1 t2 (inr response) self).2).1.1 = [].
Proof.
  intros Hu Hr Ht Hpu Hpr Hpt Hgt.
  rewrite (request_parsed_left _ _ _ _ _ _ _ _ _ _ Hu Hr Ht Hpu Hpr Hpt
             (float_gt0_not_le0 _ Hgt)).
  cbn [snd]. by rewrite request_sleeps.
Qed.

(** X19.  After a request whose response, read at time [t2], reported
    remaining <= 0 and [seconds] to reset, not too large to be added to a
    float, the next request, at time [t3], sleeps for [t2 + seconds - t3]
    unless that is <= 0. *)
Theorem request_after_quota_exhausted t1 t2 t3 t4 response send self
    u r t used remaining seconds :
  headers response !! "x-ratelimit-used" = Some u →
  headers response !! "x-ratelimit-remaining" = Some r →
  headers response !! "x-ratelimit-reset" = Some t →
  float_of_string u = Some used →
  float_of_string r = Some remaining →
  int_of_string t = Some seconds →
  float_le0 remaining = true →
  int_overflows_float seconds = false →
  (request t3 t4 send (request t1 t2 (inr response) self).2).1.1
  = if float_le0 (float_sub (float_add_int t2 seconds) t3) then []
    else [float_sub (float_add_int t2 seconds) t3].
Proof.
  intros Hu Hr Ht Hpu Hpr Hpt Hle Hfit.
  rewrite (request_parsed _ _ _ _ _ _ _ _ _ _ Hu Hr Ht Hpu Hpr Hpt Hle Hfit).
  cbn [snd].
  rewrite request_sleeps. unfold delay. cbn.
  by destruct (float_le0 (float_sub (float_add_int t2 seconds) t3)).
Qed.

(** X20.  A limiter without a timestamp gets one from [request] only when
    the send returned a response whose x-ratelimit-remaining parses to a
    value <= 0, and the timestamp is then the time of the update plus the
    seconds to reset. *)
Theorem request_sets_timestamp_only_when_exhausted t1 t2 send self stamp :
  next_request_timestamp self = None →
  next_request_timestamp (request t1 t2 send self).2 = Some stamp →
  ∃ response r remaining t seconds,
    send = inr response ∧
    headers response !! "x-ratelimit-remaining" = Some r ∧
    float_of_string r = Some remaining ∧
    float_le0 remaining = true ∧
    headers response !! "x-ratelimit-reset" = Some t ∧
    int_of_string t = Some seconds ∧
    stamp = float_add_int t2 seconds.
Proof.
  intros Hnone. unfold request.
  pose proof (delay_keeps_state t1 self) as Hd.
  destruct (delay t1 self) as [sleeps self1]. cbn in Hd. subst self1.
  destruct send as [e|response]; cbn; [congruence|].
  unfold update, header_float, header_int.
  destruct (headers response !! "x-ratelimit-remaining") as [r|] eqn:Hr;
    cbn; [|congruence].
  destruct (headers response !! "x-ratelimit-used") as [u|]; cbn; [|congruence].
  destruct (float_of_string u); cbn; [|congruence].
  destruct (float_of_string r) as [remaining|] eqn:Hpr; cbn; [|congruence].
  destruct (headers response !! "x-ratelimit-reset") as [t|] eqn:Ht; cbn;
    [|congruence].
  destruct (int_of_string t) as [seconds|] eqn:Hpt; cbn; [|congruence].
  destruct (float_le0 remaining) eqn:Hle; cbn; [|congruence].
  destruct (int_overflows_float seconds); cbn; [congruence|].
  intros [= <-]. by exists response, r, remaining, t, seconds.
Qed.
End LimiterMore.

(** ** fix_cache: further proofs *)

Section FixCacheMore.
Context {K R : Type}.
Import FixCache.

(** X21.  Given a cache key whose items have fewer than five components,
    the wrapper raises [IndexError] and the wrapped handler is not called,
    whatever the method and the caching hint. *)
Theorem fix_cache_short_key_raises
    (func : option (string * list K) → bool → exn + R) url items ignore method :
  (length items < 5)%nat →
  fix_cache func (Some (url, items)) ignore method = inl IndexError.
Proof.
  intros Hlen. unfold fix_cache, wraps_args.
  destruct items as [|a [|b [|c [|d [|e rest]]]]]; try done.
  cbn in Hlen. lia.
Qed.
End FixCacheMore.

(** ** Concrete runs of the limiter and of the cache shim *)

Lemma update_raises_on_bad_quota_header_witness :
  is_Some (headers_remaining_only !! "x-ratelimit-remaining").
Proof.
  exact (proj1 (update_raises_on_bad_quota_header (F := whole_seconds)
                  100 headers_remaining_only
                  (OAuthRateLimiter.mkRateLimiter None)
                  (KeyError "x-ratelimit-used") eq_refl)).
Defined.

Lemma request_drops_response_without_used_witness :
  OAuthRateLimiter.request (F := whole_seconds) 100 101
    (inr response_without_used)
    (OAuthRateLimiter.mkRateLimiter (F := whole_seconds) (Some 130))
  = ([30], inl (KeyError "x-ratelimit-used"),
     OAuthRateLimiter.mkRateLimiter (F := whole_seconds) (Some 130)).
Proof.
  exact (request_drops_response_without_used (F := whole_seconds) 100 101
           response_without_used
           (OAuthRateLimiter.mkRateLimiter (F := whole_seconds) (Some 130)) "0" eq_refl eq_refl).
Defined.

Lemma request_unmetered_keeps_state_witness :
  OAuthRateLimiter.request (F := whole_seconds) 100 101
    (inr response_unmetered)
    (OAuthRateLimiter.mkRateLimiter (F := whole_seconds) (Some 130))
  = ([30], inr response_unmetered,
     OAuthRateLimiter.mkRateLimiter (F := whole_seconds) (Some 130)).
Proof.
  exact (request_unmetered_keeps_state (F := whole_seconds) 100 101
           response_unmetered
           (OAuthRateLimiter.mkRateLimiter (F := whole_seconds) (Some 130)) eq_refl).
Defined.

Lemma request_after_quota_left_witness :
  (OAuthRateLimiter.request (F := whole_seconds) 102 103
     (inr response_available)
     (OAuthRateLimiter.request (F := whole_seconds) 100 101
        (inr response_available)
        (OAuthRateLimiter.mkRateLimiter (F := whole_seconds) (Some 130))).2).1.1
  = [].
Proof.
  exact (request_after_quota_left (F := whole_seconds) 100 101 102 103
           response_available (inr response_available)
           (OAuthRateLimiter.mkRateLimiter (F := whole_seconds) (Some 130))
           "1" "599" "30" 1 599 30
           eq_refl eq_refl eq_refl eq_refl eq_refl eq_refl eq_refl).
Defined.

Lemma request_after_quota_exhausted_witness :
  (OAuthRateLimiter.request (F := whole_seconds) 102 103
     (inr response_available)
     (OAuthRateLimiter.request (F := whole_seconds) 100 101
        (inr response_exhausted)
        (OAuthRateLimiter.mkRateLimiter (F := whole_seconds) None)).2).1.1
  = [29].
Proof.
  exact (request_after_quota_exhausted (F := whole_seconds) 100 101 102 103
           response_exhausted (inr response_available)
           (OAuthRateLimiter.mkRateLimiter (F := whole_seconds) None)
           "600" "0" "30" 600 0 30
           eq_refl eq_refl eq_refl eq_refl eq_refl eq_refl eq_refl eq_refl).
Defined.

Lemma request_sets_timestamp_only_when_exhausted_witness :
  ∃ response r remaining t seconds,
    @inr exn OAuthRateLimiter.Response response_exhausted = inr response ∧
    OAuthRateLimiter.headers response !! "x-ratelimit-remaining" = Some r ∧
    float_of_string (PyFloat := whole_seconds) r = Some remaining ∧
    float_le0 (PyFloat := whole_seconds) remaining = true ∧
    OAuthRateLimiter.headers response !! "x-ratelimit-reset" = Some t ∧
    int_of_string (PyFloat := whole_seconds) t = Some seconds ∧
    131 = float_add_int (PyFloat := whole_seconds) 101 seconds.
Proof.
  apply (request_sets_timestamp_only_when_exhausted (F := whole_seconds)
           100 101 (inr response_exhausted)
           (OAuthRateLimiter.mkRateLimiter None) 131); reflexivity.
Defined.

Lemma fix_cache_short_key_raises_witness :
  FixCache.fix_cache (R := unit) (λ _ _, inr tt)
    (Some ("url", ["params"; "data"; "auth"; "oauth"])) false "GET"
  = inl IndexError.
Proof.
  apply (fix_cache_short_key_raises (K := string) (R := unit)). cbn. lia.
Defined.

